(** * MusicMind / Audio Flamingo: request and response contract

    A shallow embedding of the two programs of the repository:

    - [modal_deploy/modal_app.py]: the inference class [AudioFlamingoMusic]
      and the FastAPI routes that wrap it (module [Server]);
    - [musicmind.py]: the client facade [MusicMind] and the command line
      [main] (module [Client]).

    [Server] and [Client] describe the two programs on a machine that
    stores every upload and writes every line; the modules [Storage] and
    [Terminal] go through the same statements once more with the calls
    that can fail there (writing the temporary file, [print],
    [Path.exists]) as the machine answers them.

    Everything the repository delegates to a library (the pretrained model,
    librosa, tempfile, requests, argparse, json) is either a field of an
    environment record or a small model written from the library's
    documentation; the control flow around those calls is the repository's
    own and is transcribed statement by statement. *)

From Stdlib Require Import ZArith QArith String Ascii List Bool Lia.
From stdpp Require Import gmap strings pretty.

Import ListNotations.
Set Warnings "-register-all".
Local Open Scope string_scope.
Local Open Scope Z_scope.

(** ** Python values *)

(** The classes of the exceptions that occur in the two programs.  All of
    them derive from Python's [Exception]; the last four derive from
    [requests.exceptions.RequestException]. *)
Inductive exc_class : Type :=
  | OSError | FileNotFoundError | IsADirectoryError | PermissionError
  | KeyError | TypeError | ValueError | ZeroDivisionError | RuntimeError
  | OverflowError | UnicodeEncodeError
  | HTTPError | ConnectionError | Timeout | JSONDecodeError.

(** [exc_msg] is what [str(e)] returns. *)
Record exn : Type := Exn { exc : exc_class; exc_msg : string }.

Definition is_RequestException (c : exc_class) : bool :=
  match c with
  | HTTPError | ConnectionError | Timeout | JSONDecodeError => true
  | _ => false
  end.

(** A Python call either returns or raises. *)
Inductive result (A : Type) : Type :=
  | Ok (a : A)
  | Raise (e : exn).
Arguments Ok {A} a.
Arguments Raise {A} e.

Definition bind {A B : Type} (r : result A) (k : A -> result B) : result B :=
  match r with
  | Ok a => k a
  | Raise e => Raise e
  end.

Notation "'let*' x := r 'in' k" := (bind r (fun x => k))
  (at level 10, x pattern, r at level 100, k at level 200).

Definition is_ok {A : Type} (r : result A) : bool :=
  match r with
  | Ok _ => true
  | Raise _ => false
  end.

(** The values that travel in the JSON documents.  A [float] is modelled by
    the rational it denotes (in lowest terms), a [str] by its UTF-8 bytes,
    a [dict] by its items in insertion order. *)
Inductive pyval : Type :=
  | PyNone
  | PyBool (b : bool)
  | PyInt (z : Z)
  | PyFloat (q : Q)
  | PyStr (s : string)
  | PyList (l : list pyval)
  | PyDict (d : list (string * pyval)).

Definition pydict : Type := list (string * pyval).

(** [d.get(k)] *)
Fixpoint dict_get (d : pydict) (k : string) : option pyval :=
  match d with
  | [] => None
  | (k', v) :: d' => if String.eqb k' k then Some v else dict_get d' k
  end.

(** [d[k] = v]: an existing key keeps its position, a new key goes last. *)
Fixpoint dict_set (d : pydict) (k : string) (v : pyval) : pydict :=
  match d with
  | [] => [(k, v)]
  | (k', v') :: d' =>
      if String.eqb k' k then (k', v) :: d' else (k', v') :: dict_set d' k v
  end.

Definition dict_keys (d : pydict) : list string := map fst d.

(** The number a numeric value denotes ([True] is [1] in Python). *)
Definition num_value (v : pyval) : option Q :=
  match v with
  | PyBool b => Some (if b then 1%Q else 0%Q)
  | PyInt z => Some (inject_Z z)
  | PyFloat q => Some q
  | _ => None
  end.

Definition dquote : string := String (ascii_of_nat 34) EmptyString.
Definition nl : string := String (ascii_of_nat 10) EmptyString.

(** [s * n] *)
Fixpoint str_repeat (s : string) (n : nat) : string :=
  match n with
  | O => ""
  | S n' => s +:+ str_repeat s n'
  end.

(** [s] without its prefix [p], when it has that prefix *)
Fixpoint drop_prefix (p s : string) : option string :=
  match p, s with
  | EmptyString, _ => Some s
  | String a p', String b s' => if Ascii.eqb a b then drop_prefix p' s' else None
  | _, _ => None
  end.

(** The contents of a file, as uploaded or read. *)
Definition bytes : Type := list Byte.byte.

(** ** The inference server: [modal_deploy/modal_app.py] *)

Module Server.

(** The worker's file system: path to contents. *)
Abbreviation filesystem := (gmap string bytes).

(** A decoded sound file: native sampling rate and mono samples. *)
Record Audio : Type := { native_sr : positive; frames : list Q }.

(** The arguments of [model.generate] that the two inference methods set. *)
Record GenConfig : Type := {
  max_new_tokens : Z;
  do_sample : bool;
  temperature : option Q;
  top_p : option Q
}.

(** What the class gets from outside the repository. *)
Record Services : Type := {
  (** [processor.apply_chat_template], [model.generate] and
      [processor.batch_decode] on a one-turn conversation made of a text
      and an audio path; the sampling randomness is part of the service. *)
  infer : string -> string -> GenConfig -> filesystem -> result string;
  (** the sound-file decoder behind [librosa.load] *)
  decode : bytes -> result Audio;
  (** [librosa.beat.beat_track(y=y, sr=sr)], first component *)
  beat_track : list Q -> positive -> result Q;
  (** the name [tempfile.NamedTemporaryFile] picks in the temp directory *)
  mkstemp_name : filesystem -> string
}.

Definition DEFAULT_PROMPT : string :=
  "Analyze this music and provide:" +:+ nl +:+
  "            1. Genre and style" +:+ nl +:+
  "            2. Mood and energy level (1-10)" +:+ nl +:+
  "            3. Best use case (party, chill, workout, etc.)" +:+ nl +:+
  "            4. Similar artists/tracks" +:+ nl +:+
  "            5. Production notes (tempo, key, instrumentation)" +:+ nl +:+
  "            ".

Definition PARTY_PROMPT : string :=
  "Rate this track for a party (1-10) and explain why." +:+ nl +:+
  "        Consider: energy, danceability, crowd appeal, drop quality." +:+ nl +:+
  "        Give a one-line verdict like " +:+ dquote +:+
  "🔥 BANGER - Drop this at peak time!" +:+ dquote +:+ " or " +:+ dquote +:+
  "😴 Skip - Too chill" +:+ dquote +:+ nl +:+
  "        ".

Definition CAPTION_PROMPT : string :=
  "Create a catchy social media caption for this track." +:+ nl +:+
  "        Make it fun, include emojis, and capture the vibe." +:+ nl +:+
  "        Examples: " +:+ dquote +:+ "This drop hits different 🚀" +:+ dquote +:+
  ", " +:+ dquote +:+ "Late night drives only 🌙" +:+ dquote +:+ nl +:+
  "        ".

Definition TRANSCRIBE_PROMPT : string :=
  "Transcribe all lyrics from this song accurately.".

Definition analyze_config : GenConfig :=
  {| max_new_tokens := 512; do_sample := true;
     temperature := Some (7 # 10)%Q; top_p := Some (9 # 10)%Q |}.

Definition transcribe_config : GenConfig :=
  {| max_new_tokens := 1024; do_sample := false;
     temperature := None; top_p := None |}.

Section Inference.

Variable svc : Services.

(** [librosa.load(path, sr=None, duration=d)]: the file is read and decoded
    at its native rate, and only the first [d] seconds are kept. *)
Definition librosa_load (fs : filesystem) (path : string) (duration : Z)
  : result (list Q * positive) :=
  match fs !! path with
  | None => Raise (Exn FileNotFoundError path)
  | Some content =>
      let* a := decode svc content in
      Ok (firstn (Z.to_nat (duration * Z.pos (native_sr a))) (frames a),
          native_sr a)
  end.

(** The body of the [try] of [analyze_music]: three statements, each of
    which may raise. *)
Definition audio_features (fs : filesystem) (audio_path : string)
  : result (Q * Q) :=
  let* (y, sr) := librosa_load fs audio_path 30 in
  let* tempo := beat_track svc y sr in
  Ok (tempo, Qred (Z.of_nat (length y) # sr)).


(** [float(tempo) if tempo else 0] *)
Definition tempo_field (tempo : pyval) : pyval :=
  match tempo with
  | PyFloat q => if Qeq_bool q 0 then PyInt 0 else PyFloat q
  | PyInt z => if Z.eqb z 0 then PyInt 0 else PyFloat (inject_Z z)
  | _ => PyInt 0
  end.

Definition analyze_music (fs : filesystem) (audio_path : string)
    (prompt : option string) : result pydict :=
  let prompt := match prompt with None => DEFAULT_PROMPT | Some p => p end in
  let* response := infer svc prompt audio_path analyze_config fs in
  let '(tempo, duration) :=
    match audio_features fs audio_path with
    | Ok (tempo, duration) => (PyFloat tempo, PyFloat duration)
    | Raise _ => (PyInt 0, PyInt 0)
    end in
  Ok [("analysis", PyStr response);
      ("tempo_bpm", tempo_field tempo);
      ("duration_seconds", duration)].

Definition party_vibe_check (fs : filesystem) (audio_path : string)
  : result pydict :=
  let* result := analyze_music fs audio_path (Some PARTY_PROMPT) in
  Ok (dict_set result "vibe_check" (PyBool true)).

Definition transcribe_lyrics (fs : filesystem) (audio_path : string)
  : result pydict :=
  let* response := infer svc TRANSCRIBE_PROMPT audio_path transcribe_config fs in
  Ok [("lyrics", PyStr response)].

Definition generate_caption (fs : filesystem) (audio_path : string)
  : result pydict :=
  analyze_music fs audio_path (Some CAPTION_PROMPT).

End Inference.

(** *** The FastAPI routes *)

Record Response : Type := JSONResponse { content : pydict; status_code : Z }.

Inductive fs_event : Type :=
  | Created (path : string)
  | Unlinked (path : string).

(** What handling one request leaves behind: the response handed to the
    framework ([Raise] when an exception escapes the route function), the
    file system, and the files created and removed on the way. *)
Record Outcome : Type := {
  response : result Response;
  files_after : filesystem;
  fs_log : list fs_event
}.

Section Routes.

Variable svc : Services.

(** [with tempfile.NamedTemporaryFile(delete=False, suffix=".wav") as tmp]:
    the upload is written to a new file, which outlives the [with].  The
    write succeeds here; [Storage.store_upload] has the case in which it
    does not. *)
Definition NamedTemporaryFile (fs : filesystem) (content : bytes)
  : string * filesystem :=
  let tmp_path := mkstemp_name svc fs in
  (tmp_path, <[tmp_path := content]> fs).

Definition os_unlink (fs : filesystem) (path : string) : result filesystem :=
  match fs !! path with
  | Some _ => Ok (delete path fs)
  | None => Raise (Exn FileNotFoundError path)
  end.

(** The statements the four routes share, [method] being the call of the
    [try] block:
<<
    with tempfile.NamedTemporaryFile(delete=False, suffix=".wav") as tmp: ...
    try:
        result = method(tmp_path)
        return JSONResponse(result)
    except Exception as e:
        return JSONResponse({"error": str(e)}, status_code=500)
    finally:
        os.unlink(tmp_path)
>>
    An exception raised by the [finally] clause replaces the pending
    [return]. *)
Definition upload_route (method : filesystem -> string -> result pydict)
    (file : bytes) (fs : filesystem) : Outcome :=
  let '(tmp_path, fs1) := NamedTemporaryFile fs file in
  let returned :=
    match method fs1 tmp_path with
    | Ok result => JSONResponse result 200
    | Raise e => JSONResponse [("error", PyStr (exc_msg e))] 500
    end in
  match os_unlink fs1 tmp_path with
  | Ok fs2 =>
      {| response := Ok returned; files_after := fs2;
         fs_log := [Created tmp_path; Unlinked tmp_path] |}
  | Raise e =>
      {| response := Raise e; files_after := fs1;
         fs_log := [Created tmp_path] |}
  end.

Definition analyze (file : bytes) (prompt : option string) : filesystem -> Outcome :=
  upload_route (fun fs tmp_path => analyze_music svc fs tmp_path prompt) file.

Definition party_vibe (file : bytes) : filesystem -> Outcome :=
  upload_route (party_vibe_check svc) file.

Definition transcribe (file : bytes) : filesystem -> Outcome :=
  upload_route (transcribe_lyrics svc) file.

Definition caption (file : bytes) : filesystem -> Outcome :=
  upload_route (generate_caption svc) file.

Definition health : pydict :=
  [("status", PyStr "healthy"); ("model", PyStr "audio-flamingo-3");
   ("cached", PyBool true)].

(** The four task endpoints, and the inference call each one makes. *)
Inductive endpoint : Type :=
  | Analyze (prompt : option string)
  | PartyVibe
  | Transcribe
  | Caption.

Definition handler (ep : endpoint) (fs : filesystem) (tmp_path : string)
  : result pydict :=
  match ep with
  | Analyze prompt => analyze_music svc fs tmp_path prompt
  | PartyVibe => party_vibe_check svc fs tmp_path
  | Transcribe => transcribe_lyrics svc fs tmp_path
  | Caption => generate_caption svc fs tmp_path
  end.

Definition serve (ep : endpoint) (file : bytes) (fs : filesystem) : Outcome :=
  match ep with
  | Analyze prompt => analyze file prompt fs
  | PartyVibe => party_vibe file fs
  | Transcribe => transcribe file fs
  | Caption => caption file fs
  end.

(** A multipart POST as FastAPI sees it. *)
Record HttpPost : Type := {
  route : string;
  upload : bytes;
  form : list (string * string)
}.

Fixpoint form_get (form : list (string * string)) (k : string) : option string :=
  match form with
  | [] => None
  | (k', v) :: form' => if String.eqb k' k then Some v else form_get form' k
  end.

(** Routing: [prompt: str = Form(None)] is read on [/analyze] only; an
    unknown path has no route. *)
Definition fastapi_app (req : HttpPost) : option endpoint :=
  if String.eqb (route req) "/analyze" then
    Some (Analyze (form_get (form req) "prompt"))
  else if String.eqb (route req) "/party-vibe" then Some PartyVibe
  else if String.eqb (route req) "/transcribe" then Some Transcribe
  else if String.eqb (route req) "/caption" then Some Caption
  else None.

(** The party route in the words of its specification: the general
    analysis route run with the fixed party prompt, a successful result
    being extended with the field [vibe_check] set to true. *)
Definition party_vibe_as_specified (file : bytes) (fs : filesystem) : Outcome :=
  let general := analyze file (Some PARTY_PROMPT) fs in
  {| response :=
       match response general with
       | Ok r =>
           if status_code r =? 200
           then Ok (JSONResponse (dict_set (content r) "vibe_check" (PyBool true)) 200)
           else Ok r
       | Raise e => Raise e
       end;
     files_after := files_after general;
     fs_log := fs_log general |}.

End Routes.

End Server.

(** ** The routes on a disk that can be full

    [Server.upload_route] takes the upload as stored: it models the routes
    on a worker with room for the file.  The statements that store it come
    before the [try] of the route, and this module adds the case in which
    they fail. *)

Module Storage.

Import Server.

Section Storage.

Variable svc : Services.

(** The room left in the temporary directory, in bytes. *)
Variable free : nat.

(** The first statements of each route:
<<
    with tempfile.NamedTemporaryFile(delete=False, suffix=".wav") as tmp:
        content = await file.read()
        tmp.write(content)
        tmp_path = tmp.name
>>
    The file is created empty and then written.  When the upload does not
    fit, the write (or the flush on leaving the [with]) raises [OSError];
    the file, created with [delete=False], stays with the bytes that
    fitted. *)
Definition store_upload (fs : filesystem) (content : bytes)
  : string * filesystem * result unit :=
  let tmp_path := mkstemp_name svc fs in
  if Nat.leb (length content) free then
    (tmp_path, <[tmp_path := content]> fs, Ok tt)
  else
    (tmp_path, <[tmp_path := firstn free content]> fs,
     Raise (Exn OSError "[Errno 28] No space left on device")).

(** A route from its first statement to its last.  An exception of the
    [with] block is raised before the [try] is entered: it leaves the
    route function, and neither the [except] nor the [finally] clause
    runs. *)
Definition upload_route (method : filesystem -> string -> result pydict)
    (file : bytes) (fs : filesystem) : Outcome :=
  match store_upload fs file with
  | (tmp_path, fs1, Raise e) =>
      {| response := Raise e; files_after := fs1;
         fs_log := [Created tmp_path] |}
  | (tmp_path, fs1, Ok _) =>
      let returned :=
        match method fs1 tmp_path with
        | Ok result => JSONResponse result 200
        | Raise e => JSONResponse [("error", PyStr (exc_msg e))] 500
        end in
      match os_unlink fs1 tmp_path with
      | Ok fs2 =>
          {| response := Ok returned; files_after := fs2;
             fs_log := [Created tmp_path; Unlinked tmp_path] |}
      | Raise e =>
          {| response := Raise e; files_after := fs1;
             fs_log := [Created tmp_path] |}
      end
  end.

Definition serve (ep : endpoint) (file : bytes) (fs : filesystem) : Outcome :=
  upload_route (handler svc ep) file fs.

End Storage.

End Storage.

(** ** The client: [musicmind.py] *)

Module Client.

Definition DEFAULT_URL : string :=
  "https://themindexpansionnetwork--audio-flamingo-music-fastapi-app.modal.run".

(** What [requests] hands back for a completed exchange. *)
Record HttpResponse : Type := {
  status_code : Z;
  reason : string;
  url : string;
  text : string
}.

(** The arguments of [session.post]. *)
Record PostRequest : Type := {
  post_url : string;
  post_files : list (string * bytes);
  post_data : list (string * string);
  post_timeout : Z
}.

(** The machine the client runs on and the network it talks to. *)
Record World : Type := {
  getenv : string -> option string;
  path_exists : string -> bool;
  open_rb : string -> result bytes;
  session_post : PostRequest -> result HttpResponse;
  session_get : string -> Z -> result HttpResponse
}.

(** The standard-library functions whose output the client only forwards. *)
Record PyLib : Type := {
  (** [json.loads]; [None] when the text is not a JSON document *)
  json_loads : string -> option pyval;
  (** [json.dumps(v, indent=n)] *)
  json_dumps : Z -> pyval -> string;
  (** [repr(v)] *)
  py_repr : pyval -> string;
  (** [format(x, ".1f")] on a number *)
  format_1f : Q -> string
}.

Inductive event : Type :=
  | Print (line : string)
  | Post (req : PostRequest)
  | Get (get_url : string).

Definition is_network (e : event) : bool :=
  match e with
  | Print _ => false
  | Post _ | Get _ => true
  end.

(** A piece of client code: what it did, and how it ended. *)
Definition io (A : Type) : Type := list event * result A.

Definition io_bind {A B : Type} (m : io A) (k : A -> io B) : io B :=
  match m with
  | (ev, Ok a) => let '(ev', r) := k a in ((ev ++ ev')%list, r)
  | (ev, Raise e) => (ev, Raise e)
  end.

Notation "'let!' x := m 'in' k" := (io_bind m (fun x => k))
  (at level 10, x pattern, m at level 100, k at level 200).

(** [print(line)] on a standard output that takes the line;
    [Terminal.print] has the case in which it does not. *)
Definition print (line : string) : io unit := ([Print line], Ok tt).
Definition lift {A : Type} (r : result A) : io A := ([], r).

Section Facade.

Variable w : World.
Variable lib : PyLib.

(** [MODAL_ENDPOINT = os.getenv("MUSICMIND_ENDPOINT", "https://...")] *)
Definition MODAL_ENDPOINT : string :=
  match getenv w "MUSICMIND_ENDPOINT" with
  | Some v => v
  | None => DEFAULT_URL
  end.

(** [response.raise_for_status()] of requests: statuses 400 to 599 raise. *)
Definition raise_for_status (r : HttpResponse) : result unit :=
  if (400 <=? status_code r) && (status_code r <? 500) then
    Raise (Exn HTTPError
      (pretty (status_code r) +:+ " Client Error: " +:+
       reason r +:+ " for url: " +:+ url r))
  else if (500 <=? status_code r) && (status_code r <? 600) then
    Raise (Exn HTTPError
      (pretty (status_code r) +:+ " Server Error: " +:+
       reason r +:+ " for url: " +:+ url r))
  else Ok tt.

(** [response.json()] *)
Definition response_json (r : HttpResponse) : result pyval :=
  match json_loads lib (text r) with
  | Some v => Ok v
  | None => Raise (Exn JSONDecodeError "Expecting value: line 1 column 1 (char 0)")
  end.

(** The facade object: [self.endpoint] ([self.session] is the world's). *)
Record MusicMind : Type := { endpoint : string }.

(** [__init__]: [self.endpoint = endpoint or MODAL_ENDPOINT] *)
Definition MusicMind_init (ep : option string) : MusicMind :=
  match ep with
  | Some (String c s') => {| endpoint := String c s' |}
  | _ => {| endpoint := MODAL_ENDPOINT |}
  end.

(** [{'prompt': prompt} if prompt else {}] *)
Definition prompt_data (prompt : option string) : list (string * string) :=
  match prompt with
  | Some (String c p') => [("prompt", String c p')]
  | _ => []
  end.

(** The statements the four upload methods share: open the file, post it,
    check the status, decode the body. *)
Definition post_file (self : MusicMind) (route : string) (audio_path : string)
    (data : list (string * string)) : io pyval :=
  let! f := lift (open_rb w audio_path) in
  let req := {| post_url := endpoint self +:+ route;
                post_files := [("file", f)];
                post_data := data;
                post_timeout := 120 |} in
  let! response := ([Post req], session_post w req) in
  let! _ := lift (raise_for_status response) in
  lift (response_json response).

Definition analyze (self : MusicMind) (audio_path : string)
    (prompt : option string) : io pyval :=
  post_file self "/analyze" audio_path (prompt_data prompt).

Definition party_vibe (self : MusicMind) (audio_path : string) : io pyval :=
  post_file self "/party-vibe" audio_path [].

Definition transcribe (self : MusicMind) (audio_path : string) : io pyval :=
  post_file self "/transcribe" audio_path [].

Definition caption (self : MusicMind) (audio_path : string) : io pyval :=
  post_file self "/caption" audio_path [].

Definition health_check (self : MusicMind) : io pyval :=
  let get_url := endpoint self +:+ "/health" in
  let! response := ([Get get_url], session_get w get_url 10) in
  let! _ := lift (raise_for_status response) in
  lift (response_json response).

End Facade.

(** *** The command line *)

Inductive command : Type :=
  | CmdAnalyze | CmdPartyVibe | CmdTranscribe | CmdCaption | CmdHealth.

(** The namespace [parser.parse_args()] returns. *)
Record Namespace : Type := {
  arg_command : command;
  arg_audio_file : option string;
  arg_prompt : option string;
  arg_endpoint : string;
  arg_json : bool
}.

(** How a run of the program ends, and what it did before. *)
Record Run : Type := { exit_code : Z; events : list event }.

(** The integers [float(z)] converts: those that round to a finite double,
    the largest of which is [2 ** 1024 - 2 ** 971].  From
    [2 ** 1024 - 2 ** 970] on the conversion raises [OverflowError]. *)
Definition fits_float (z : Z) : bool := Z.abs z <? 2 ^ 1024 - 2 ^ 970.

Section Main.

Variable w : World.
Variable lib : PyLib.

(** [result[key]] on a decoded document *)
Definition getitem (v : pyval) (key : string) : result pyval :=
  match v with
  | PyDict d =>
      match dict_get d key with
      | Some x => Ok x
      | None => Raise (Exn KeyError ("'" +:+ key +:+ "'"))
      end
  | PyList _ => Raise (Exn TypeError "list indices must be integers or slices, not str")
  | PyStr _ => Raise (Exn TypeError "string indices must be integers")
  | _ => Raise (Exn TypeError "object is not subscriptable")
  end.

(** [str(v)], as [print] and a bare replacement field apply it *)
Definition py_str (v : pyval) : string :=
  match v with
  | PyStr s => s
  | _ => py_repr lib v
  end.

(** The replacement field [{v:.1f}].  An [int] is converted to a [float]
    first, and the conversion raises when the integer is out of range. *)
Definition format_spec_1f (v : pyval) : result string :=
  match v with
  | PyInt z =>
      if fits_float z then Ok (format_1f lib (inject_Z z))
      else Raise (Exn OverflowError "int too large to convert to float")
  | PyBool _ | PyFloat _ =>
      match num_value v with
      | Some q => Ok (format_1f lib q)
      | None => Raise (Exn TypeError "unsupported format string")
      end
  | PyStr _ => Raise (Exn ValueError "Unknown format code 'f' for object of type 'str'")
  | _ => Raise (Exn TypeError "unsupported format string passed to __format__")
  end.

(** The [try] block of the health branch. *)
Definition health_block (mind : MusicMind) (args : Namespace) : io unit :=
  let! result := health_check w lib mind in
  if arg_json args then print (json_dumps lib 2 result)
  else
    let! model := lift (getitem result "model") in
    print ("✅ " +:+ py_str model +:+ " is healthy").

(** The [try] block of the four upload commands. *)
Definition task_block (mind : MusicMind) (args : Namespace) (audio_file : string)
  : io unit :=
  match arg_command args with
  | CmdAnalyze =>
      let! result := analyze w lib mind audio_file (arg_prompt args) in
      if arg_json args then print (json_dumps lib 2 result)
      else
        let! _ := print "🎵 MUSIC ANALYSIS" in
        let! _ := print (str_repeat "=" 50) in
        let! analysis := lift (getitem result "analysis") in
        let! _ := print (py_str analysis) in
        let! tempo := lift (getitem result "tempo_bpm") in
        let! tempo_s := lift (format_spec_1f tempo) in
        let! _ := print (nl +:+ "📊 Tempo: " +:+ tempo_s +:+ " BPM") in
        let! duration := lift (getitem result "duration_seconds") in
        let! duration_s := lift (format_spec_1f duration) in
        print ("⏱️  Duration: " +:+ duration_s +:+ "s")
  | CmdPartyVibe =>
      let! result := party_vibe w lib mind audio_file in
      if arg_json args then print (json_dumps lib 2 result)
      else
        let! _ := print "🎉 PARTY VIBE CHECK" in
        let! _ := print (str_repeat "=" 50) in
        let! analysis := lift (getitem result "analysis") in
        let! _ := print (py_str analysis) in
        let! tempo := lift (getitem result "tempo_bpm") in
        let! tempo_s := lift (format_spec_1f tempo) in
        print (nl +:+ "📊 Tempo: " +:+ tempo_s +:+ " BPM")
  | CmdTranscribe =>
      let! result := transcribe w lib mind audio_file in
      if arg_json args then print (json_dumps lib 2 result)
      else
        let! _ := print "🎤 LYRICS TRANSCRIPTION" in
        let! _ := print (str_repeat "=" 50) in
        let! lyrics := lift (getitem result "lyrics") in
        print (py_str lyrics)
  | CmdCaption =>
      let! result := caption w lib mind audio_file in
      if arg_json args then print (json_dumps lib 2 result)
      else
        let! _ := print "📱 SOCIAL MEDIA CAPTION" in
        let! _ := print (str_repeat "=" 50) in
        let! analysis := lift (getitem result "analysis") in
        print (py_str analysis)
  | CmdHealth => lift (Ok tt)
  end.

(** [main] from [mind = MusicMind(endpoint=args.endpoint)] on.  Returning
    from [main] ends the process with status 0, [sys.exit(1)] with 1.
    [Path(args.audio_file).exists()] answers here with [path_exists];
    [Terminal.run_main] has the case in which it raises. *)
Definition run_main (args : Namespace) : Run :=
  let mind := MusicMind_init w (Some (arg_endpoint args)) in
  match arg_command args with
  | CmdHealth =>
      match health_block mind args with
      | (ev, Ok _) => {| exit_code := 0; events := ev |}
      | (ev, Raise e) =>
          {| exit_code := 1;
             events := ev ++ [Print ("❌ Health check failed: " +:+ exc_msg e)] |}
      end
  | _ =>
      match arg_audio_file args with
      | None | Some "" =>
          {| exit_code := 1;
             events := [Print "❌ Error: audio_file required for this command"] |}
      | Some audio_file =>
          if negb (path_exists w audio_file) then
            {| exit_code := 1;
               events := [Print ("❌ Error: File not found: " +:+ audio_file)] |}
          else
            match task_block mind args audio_file with
            | (ev, Ok _) => {| exit_code := 0; events := ev |}
            | (ev, Raise e) =>
                {| exit_code := 1;
                   events := ev ++
                     [Print ((if is_RequestException (exc e)
                              then "❌ API Error: " else "❌ Error: ")
                             +:+ exc_msg e)] |}
            end
      end
  end.

End Main.

(** *** Argument parsing

    A model of [argparse] on the parser [main] declares, for command lines
    written in the plain form: option strings spelled out in full, an
    option's value in the next argument, the positional arguments next to
    each other, [-h] or [--help] in first place.  Other spellings
    (abbreviated or joined options, [--], arguments that begin with a dash)
    get no answer from the model. *)

Inductive parse_outcome : Type :=
  | Parsed (args : Namespace)
  (** [parser.error]: usage on stderr, exit status 2 *)
  | UsageError
  (** the help action: help on stdout, exit status 0 *)
  | HelpExit.

Definition command_of_string (s : string) : option command :=
  if String.eqb s "analyze" then Some CmdAnalyze
  else if String.eqb s "party-vibe" then Some CmdPartyVibe
  else if String.eqb s "transcribe" then Some CmdTranscribe
  else if String.eqb s "caption" then Some CmdCaption
  else if String.eqb s "health" then Some CmdHealth
  else None.

Definition option_like (tok : string) : bool :=
  match tok with
  | String "-" (String _ _) => true
  | _ => false
  end.

Record scan : Type := {
  s_positional : list string;
  s_closed : bool;
  s_prompt : option string;
  s_endpoint : option string;
  s_json : bool
}.

Definition after_option (st : scan) : bool :=
  match s_positional st with
  | [] => s_closed st
  | _ => true
  end.

Fixpoint scan_args (argv : list string) (st : scan) : option (option scan) :=
  match argv with
  | [] => Some (Some st)
  | tok :: rest =>
      if String.eqb tok "--json" || String.eqb tok "-j" then
        scan_args rest
          {| s_positional := s_positional st; s_closed := after_option st;
             s_prompt := s_prompt st; s_endpoint := s_endpoint st;
             s_json := true |}
      else if String.eqb tok "--prompt" || String.eqb tok "-p" then
        match rest with
        | [] => Some None
        | v :: rest' =>
            if option_like v then None
            else scan_args rest'
              {| s_positional := s_positional st; s_closed := after_option st;
                 s_prompt := Some v; s_endpoint := s_endpoint st;
                 s_json := s_json st |}
        end
      else if String.eqb tok "--endpoint" then
        match rest with
        | [] => Some None
        | v :: rest' =>
            if option_like v then None
            else scan_args rest'
              {| s_positional := s_positional st; s_closed := after_option st;
                 s_prompt := s_prompt st; s_endpoint := Some v;
                 s_json := s_json st |}
        end
      else if option_like tok then None
      else if s_closed st then None
      else
        scan_args rest
          {| s_positional := s_positional st ++ [tok]; s_closed := false;
             s_prompt := s_prompt st; s_endpoint := s_endpoint st;
             s_json := s_json st |}
  end.

Definition parse_args (w : World) (argv : list string) : option parse_outcome :=
  match argv with
  | "-h" :: _ | "--help" :: _ => Some HelpExit
  | _ =>
      match scan_args argv
              {| s_positional := []; s_closed := false; s_prompt := None;
                 s_endpoint := None; s_json := false |} with
      | None => None
      | Some None => Some UsageError
      | Some (Some st) =>
          let namespace cmd audio_file :=
            {| arg_command := cmd; arg_audio_file := audio_file;
               arg_prompt := s_prompt st;
               arg_endpoint := match s_endpoint st with
                               | Some e => e
                               | None => MODAL_ENDPOINT w
                               end;
               arg_json := s_json st |} in
          match s_positional st with
          | [] => Some UsageError
          | c :: more =>
              match command_of_string c, more with
              | None, _ => Some UsageError
              | Some cmd, [] => Some (Parsed (namespace cmd None))
              | Some cmd, [f] => Some (Parsed (namespace cmd (Some f)))
              | Some _, _ => Some UsageError
              end
          end
      end
  end.

(** The whole program on [sys.argv[1:]].  [events] records what
    [musicmind.py] prints and the requests it sends; the usage and help
    texts are argparse's own. *)
Definition main (w : World) (lib : PyLib) (argv : list string) : option Run :=
  match parse_args w argv with
  | None => None
  | Some (Parsed args) => Some (run_main w lib args)
  | Some UsageError => Some {| exit_code := 2; events := [] |}
  | Some HelpExit => Some {| exit_code := 0; events := [] |}
  end.

(** *** Reading a run *)

(** The lines written to standard output, in order. *)
Fixpoint stdout (ev : list event) : list string :=
  match ev with
  | [] => []
  | Print line :: ev' => line :: stdout ev'
  | _ :: ev' => stdout ev'
  end.

(** The requests sent, in order. *)
Definition network (ev : list event) : list event := filter is_network ev.

(** The path each upload command posts to. *)
Definition route_of (cmd : command) : string :=
  match cmd with
  | CmdAnalyze => "/analyze"
  | CmdPartyVibe => "/party-vibe"
  | CmdTranscribe => "/transcribe"
  | CmdCaption => "/caption"
  | CmdHealth => "/health"
  end.

(** The request an upload command sends once the file [f] is read. *)
Definition upload_request (mind : MusicMind) (args : Namespace) (f : bytes)
  : PostRequest :=
  {| post_url := endpoint mind +:+ route_of (arg_command args);
     post_files := [("file", f)];
     post_data := match arg_command args with
                  | CmdAnalyze => prompt_data (arg_prompt args)
                  | _ => []
                  end;
     post_timeout := 120 |}.

(** How one exchange ends for the caller: the decoded document, or the
    exception of the request, of the status check or of the decoding. *)
Definition decoded (lib : PyLib) (r : result HttpResponse) : result pyval :=
  let* response := r in
  let* _ := raise_for_status response in
  response_json lib response.

Definition is_number (v : pyval) : bool :=
  match v with
  | PyBool _ | PyInt _ | PyFloat _ => true
  | _ => false
  end.

Definition has_field (v : pyval) (key : string) : bool :=
  match getitem v key with
  | Ok _ => true
  | Raise _ => false
  end.

(** The values the replacement field [{v:.1f}] can show: the numbers,
    but for the integers out of the range of [float]. *)
Definition formats_1f (v : pyval) : bool :=
  match v with
  | PyInt z => fits_float z
  | _ => is_number v
  end.

Definition has_number (v : pyval) (key : string) : bool :=
  match getitem v key with
  | Ok x => formats_1f x
  | Raise _ => false
  end.

(** The fields the text output of each command reads. *)
Definition renderable (cmd : command) (v : pyval) : bool :=
  match cmd with
  | CmdAnalyze =>
      has_field v "analysis" && has_number v "tempo_bpm"
      && has_number v "duration_seconds"
  | CmdPartyVibe => has_field v "analysis" && has_number v "tempo_bpm"
  | CmdTranscribe => has_field v "lyrics"
  | CmdCaption => has_field v "analysis"
  | CmdHealth => has_field v "model"
  end.

(** A request of the client as the server deployed at [base] receives it:
    the path after the base URL, the part named [file], the form fields. *)
Definition as_received (base : string) (req : PostRequest)
  : option Server.HttpPost :=
  match drop_prefix base (post_url req), post_files req with
  | Some path, [("file", f)] =>
      Some {| Server.route := path; Server.upload := f;
              Server.form := post_data req |}
  | _, _ => None
  end.

End Client.

(** ** The command line on the machine as it is

    [Client.run_main] takes two calls of [main] as total: [print], and
    [Path(args.audio_file).exists()].  Both can raise: [print] when the
    encoder of standard output does not take the text (a lone surrogate in
    a string of the server's document, a character the encoding lacks),
    [exists()] when [stat] fails for another reason than a missing file (a
    name that is too long, a directory that may not be searched).  This
    module transcribes [main] once more, with the two calls as the machine
    answers them. *)

Module Terminal.

Import Client.

Record Shell : Type := {
  (** [sys.stdout.write(text)], as [print] calls it: returns, or raises *)
  stdout_write : string -> result unit;
  (** [Path(p).exists()]: an answer, or the [OSError] of [stat] *)
  path_status : string -> result bool
}.

(** The machine [Client.run_main] is written for: every line is written,
    and [exists()] answers as the world says. *)
Definition plain (w : World) : Shell := {|
  stdout_write := fun _ => Ok tt;
  path_status := fun path => Ok (path_exists w path)
|}.

Section Main.

Variable sh : Shell.
Variable w : World.
Variable lib : PyLib.

Definition print (line : string) : io unit :=
  match stdout_write sh line with
  | Ok _ => ([Print line], Ok tt)
  | Raise e => ([], Raise e)
  end.

(** The [try] block of the health branch. *)
Definition health_block (mind : MusicMind) (args : Namespace) : io unit :=
  let! result := health_check w lib mind in
  if arg_json args then print (json_dumps lib 2 result)
  else
    let! model := lift (getitem result "model") in
    print ("✅ " +:+ py_str lib model +:+ " is healthy").

(** The [try] block of the four upload commands. *)
Definition task_block (mind : MusicMind) (args : Namespace) (audio_file : string)
  : io unit :=
  match arg_command args with
  | CmdAnalyze =>
      let! result := analyze w lib mind audio_file (arg_prompt args) in
      if arg_json args then print (json_dumps lib 2 result)
      else
        let! _ := print "🎵 MUSIC ANALYSIS" in
        let! _ := print (str_repeat "=" 50) in
        let! analysis := lift (getitem result "analysis") in
        let! _ := print (py_str lib analysis) in
        let! tempo := lift (getitem result "tempo_bpm") in
        let! tempo_s := lift (format_spec_1f lib tempo) in
        let! _ := print (nl +:+ "📊 Tempo: " +:+ tempo_s +:+ " BPM") in
        let! duration := lift (getitem result "duration_seconds") in
        let! duration_s := lift (format_spec_1f lib duration) in
        print ("⏱️  Duration: " +:+ duration_s +:+ "s")
  | CmdPartyVibe =>
      let! result := party_vibe w lib mind audio_file in
      if arg_json args then print (json_dumps lib 2 result)
      else
        let! _ := print "🎉 PARTY VIBE CHECK" in
        let! _ := print (str_repeat "=" 50) in
        let! analysis := lift (getitem result "analysis") in
        let! _ := print (py_str lib analysis) in
        let! tempo := lift (getitem result "tempo_bpm") in
        let! tempo_s := lift (format_spec_1f lib tempo) in
        print (nl +:+ "📊 Tempo: " +:+ tempo_s +:+ " BPM")
  | CmdTranscribe =>
      let! result := transcribe w lib mind audio_file in
      if arg_json args then print (json_dumps lib 2 result)
      else
        let! _ := print "🎤 LYRICS TRANSCRIPTION" in
        let! _ := print (str_repeat "=" 50) in
        let! lyrics := lift (getitem result "lyrics") in
        print (py_str lib lyrics)
  | CmdCaption =>
      let! result := caption w lib mind audio_file in
      if arg_json args then print (json_dumps lib 2 result)
      else
        let! _ := print "📱 SOCIAL MEDIA CAPTION" in
        let! _ := print (str_repeat "=" 50) in
        let! analysis := lift (getitem result "analysis") in
        print (py_str lib analysis)
  | CmdHealth => lift (Ok tt)
  end.

(** [print(line)] followed by [sys.exit(1)], after the events [ev].  When
    [print] raises here nothing catches the exception: the interpreter
    writes the traceback to standard error and ends the process with
    status 1 as well. *)
Definition exit_1_after_print (ev : list event) (line : string) : Run :=
  {| exit_code := 1; events := (ev ++ fst (print line))%list |}.

(** [main] from [mind = MusicMind(endpoint=args.endpoint)] on.  Returning
    from [main] ends the process with status 0; [sys.exit(1)] and an
    exception that leaves [main] end it with status 1. *)
Definition run_main (args : Namespace) : Run :=
  let mind := MusicMind_init w (Some (arg_endpoint args)) in
  match arg_command args with
  | CmdHealth =>
      match health_block mind args with
      | (ev, Ok _) => {| exit_code := 0; events := ev |}
      | (ev, Raise e) =>
          exit_1_after_print ev ("❌ Health check failed: " +:+ exc_msg e)
      end
  | _ =>
      match arg_audio_file args with
      | None | Some "" =>
          exit_1_after_print [] "❌ Error: audio_file required for this command"
      | Some audio_file =>
          match path_status sh audio_file with
          | Raise _ => {| exit_code := 1; events := [] |}
          | Ok false =>
              exit_1_after_print [] ("❌ Error: File not found: " +:+ audio_file)
          | Ok true =>
              match task_block mind args audio_file with
              | (ev, Ok _) => {| exit_code := 0; events := ev |}
              | (ev, Raise e) =>
                  exit_1_after_print ev
                    ((if is_RequestException (exc e)
                      then "❌ API Error: " else "❌ Error: ")
                     +:+ exc_msg e)
              end
          end
      end
  end.

(** The whole program on [sys.argv[1:]].  The help text is argparse's own
    and goes to standard output: the model gives no run for a request for
    help. *)
Definition main (argv : list string) : option Run :=
  match parse_args w argv with
  | Some (Parsed args) => Some (run_main args)
  | Some UsageError => Some {| exit_code := 2; events := [] |}
  | Some HelpExit | None => None
  end.

(** *** Reading a run *)





End Main.

End Terminal.

(** ** A reference implementation of the library functions

    [json.loads], [json.dumps], [repr] and [format(x, ".1f")] written from
    their documentation, so that the client can be run on examples.  Floats
    are printed in positional notation, a value without a finite decimal
    expansion being cut after 17 digits; [NaN] and [Infinity] are not read.
    The properties of the client below hold for any implementation and do
    not depend on this one. *)

Module RefLib.

Local Open Scope N_scope.

Definition backslash : string := String (ascii_of_nat 92) EmptyString.
Definition squote : string := String (ascii_of_nat 39) EmptyString.

Definition code (c : ascii) : N := N_of_ascii c.

Definition hex_digit (n : N) : ascii :=
  if n <? 10 then ascii_of_N (48 + n) else ascii_of_N (87 + n).

Definition hex2 (n : N) : string :=
  String (hex_digit (N.shiftr n 4 mod 16))
    (String (hex_digit (n mod 16)) EmptyString).

Definition hex4 (n : N) : string :=
  (hex2 (N.shiftr n 8 mod 256) +:+ hex2 (n mod 256))%string.

(** [\uXXXX], as a surrogate pair above the basic plane *)
Definition u_escape (cp : N) : string :=
  if cp <? 65536 then (backslash +:+ "u" +:+ hex4 cp)%string
  else
    let v := cp - 65536 in
    (backslash +:+ "u" +:+ hex4 (55296 + N.shiftr v 10) +:+
     backslash +:+ "u" +:+ hex4 (56320 + N.land v 1023))%string.

Definition cont (c : ascii) : N := N.land (code c) 63.

(** The body of a JSON string with [ensure_ascii=True]. *)
Fixpoint escape_ascii (s : string) : string :=
  match s with
  | EmptyString => EmptyString
  | String c rest =>
      let n := code c in
      if n =? 34 then (backslash +:+ dquote +:+ escape_ascii rest)%string
      else if n =? 92 then (backslash +:+ backslash +:+ escape_ascii rest)%string
      else if n =? 10 then (backslash +:+ "n" +:+ escape_ascii rest)%string
      else if n =? 13 then (backslash +:+ "r" +:+ escape_ascii rest)%string
      else if n =? 9 then (backslash +:+ "t" +:+ escape_ascii rest)%string
      else if n =? 8 then (backslash +:+ "b" +:+ escape_ascii rest)%string
      else if n =? 12 then (backslash +:+ "f" +:+ escape_ascii rest)%string
      else if (n <? 32) || (n =? 127) then (u_escape n +:+ escape_ascii rest)%string
      else if n <? 128 then String c (escape_ascii rest)
      else if n <? 224 then
        match rest with
        | String c2 rest2 =>
            (u_escape (N.shiftl (N.land n 31) 6 + cont c2)
             +:+ escape_ascii rest2)%string
        | _ => (u_escape n +:+ escape_ascii rest)%string
        end
      else if n <? 240 then
        match rest with
        | String c2 (String c3 rest3) =>
            (u_escape (N.shiftl (N.land n 15) 12 + N.shiftl (cont c2) 6 + cont c3)
             +:+ escape_ascii rest3)%string
        | _ => (u_escape n +:+ escape_ascii rest)%string
        end
      else
        match rest with
        | String c2 (String c3 (String c4 rest4)) =>
            (u_escape (N.shiftl (N.land n 7) 18 + N.shiftl (cont c2) 12
                       + N.shiftl (cont c3) 6 + cont c4)
             +:+ escape_ascii rest4)%string
        | _ => (u_escape n +:+ escape_ascii rest)%string
        end
  end.

Definition quote (s : string) : string :=
  (dquote +:+ escape_ascii s +:+ dquote)%string.

Fixpoint frac_digits (fuel : nat) (r den : Z) : string :=
  match fuel with
  | O => EmptyString
  | S fuel' =>
      if (r =? 0)%Z then EmptyString
      else String (ascii_of_N (48 + Z.to_N (r * 10 / den)))
             (frac_digits fuel' ((r * 10) mod den)%Z den)
  end.

(** [repr] of a float *)
Definition float_repr (q : Q) : string :=
  let q := Qred q in
  let n := Z.abs (Qnum q) in
  let d := Z.pos (Qden q) in
  let digits := frac_digits (Nat.max 17 (S (Z.to_nat (Z.log2 d)))) (n mod d)%Z d in
  ((if (Qnum q <? 0)%Z then "-" else "") +:+ pretty (n / d)%Z +:+ "." +:+
   (match digits with EmptyString => "0" | _ => digits end))%string.

Definition spaces (n : nat) : string := str_repeat " " n.

(** [json.dumps(v, indent=indent)] at nesting depth [level] *)
Fixpoint dumps (indent level : nat) (v : pyval) : string :=
  let inner := (nl +:+ spaces (S level * indent))%string in
  let outer := (nl +:+ spaces (level * indent))%string in
  match v with
  | PyNone => "null"
  | PyBool true => "true"
  | PyBool false => "false"
  | PyInt z => pretty z
  | PyFloat q => float_repr q
  | PyStr s => quote s
  | PyList [] => "[]"
  | PyList (x :: xs) =>
      ("[" +:+ inner +:+ dumps indent (S level) x +:+
       (fix items (l : list pyval) : string :=
          match l with
          | [] => EmptyString
          | y :: l' => "," +:+ inner +:+ dumps indent (S level) y +:+ items l'
          end) xs
       +:+ outer +:+ "]")%string
  | PyDict [] => "{}"
  | PyDict ((k, x) :: xs) =>
      ("{" +:+ inner +:+ quote k +:+ ": " +:+ dumps indent (S level) x +:+
       (fix members (l : list (string * pyval)) : string :=
          match l with
          | [] => EmptyString
          | (k', y) :: l' =>
              "," +:+ inner +:+ quote k' +:+ ": " +:+ dumps indent (S level) y
              +:+ members l'
          end) xs
       +:+ outer +:+ "}")%string
  end.

(** *** Reading *)

Definition is_ws (c : ascii) : bool :=
  let n := code c in (n =? 32) || (n =? 9) || (n =? 10) || (n =? 13).

Fixpoint skip_ws (s : string) : string :=
  match s with
  | String c rest => if is_ws c then skip_ws rest else s
  | EmptyString => s
  end.

Definition is_digit (c : ascii) : bool := (48 <=? code c) && (code c <=? 57).

(** The leading digits of [s], their value so far, and how many they are. *)
Fixpoint take_digits (s : string) (acc : Z) (count : Z) : Z * Z * string :=
  match s with
  | String c rest =>
      if is_digit c
      then take_digits rest (acc * 10 + Z.of_N (code c - 48))%Z (count + 1)%Z
      else (acc, count, s)
  | EmptyString => (acc, count, s)
  end.

Definition pow10 (k : Z) : Q :=
  if (0 <=? k)%Z then inject_Z (10 ^ k) else (1 # Z.to_pos (10 ^ (- k)))%Q.

(** A number: an optional minus sign; a zero, or a non-zero digit and
    more digits; optionally a point and digits; optionally an [e] or [E],
    a sign and digits.  Without fraction and exponent it is an [int]. *)
Definition parse_number (s : string) : option (pyval * string) :=
  let '(neg, s1) :=
    match s with
    | String "-" rest => (true, rest)
    | _ => (false, s)
    end in
  let '(int_part, int_count, s2) :=
    match s1 with
    | String "0" rest => (0%Z, 1%Z, rest)
    | _ => take_digits s1 0%Z 0%Z
    end in
  if (int_count =? 0)%Z then None
  else
    let '(mantissa, frac_count, s3) :=
      match s2 with
      | String "." rest =>
          let '(m, c, rest') := take_digits rest int_part 0%Z in
          if (c =? 0)%Z then (int_part, 0%Z, s2) else (m, c, rest')
      | _ => (int_part, 0%Z, s2)
      end in
    let '(exponent, s4) :=
      match s3 with
      | String e rest =>
          if (code e =? 101) || (code e =? 69) then
            let '(eneg, rest1) :=
              match rest with
              | String "-" r => (true, r)
              | String "+" r => (false, r)
              | _ => (false, rest)
              end in
            let '(ev, c, rest2) := take_digits rest1 0%Z 0%Z in
            if (c =? 0)%Z then (None, s3)
            else (Some (if eneg then (- ev)%Z else ev), rest2)
          else (None, s3)
      | EmptyString => (None, s3)
      end in
    let signed (z : Z) : Z := if neg then (- z)%Z else z in
    match exponent with
    | None =>
        if (frac_count =? 0)%Z then Some (PyInt (signed int_part), s4)
        else Some (PyFloat (Qred (inject_Z (signed mantissa) * pow10 (- frac_count))), s4)
    | Some e =>
        Some (PyFloat (Qred (inject_Z (signed mantissa) * pow10 (e - frac_count))), s4)
    end.

Definition hex_value (c : ascii) : option N :=
  let n := code c in
  if (48 <=? n) && (n <=? 57) then Some (n - 48)
  else if (97 <=? n) && (n <=? 102) then Some (n - 87)
  else if (65 <=? n) && (n <=? 70) then Some (n - 55)
  else None.

Definition hex4_value (h1 h2 h3 h4 : ascii) : option N :=
  match hex_value h1, hex_value h2, hex_value h3, hex_value h4 with
  | Some a, Some b, Some c, Some d => Some (a * 4096 + b * 256 + c * 16 + d)
  | _, _, _, _ => None
  end.

(** The UTF-8 bytes of a code point *)
Definition utf8 (cp : N) : string :=
  let b (n : N) := ascii_of_N n in
  if cp <? 128 then String (b cp) EmptyString
  else if cp <? 2048 then
    String (b (192 + N.shiftr cp 6)) (String (b (128 + N.land cp 63)) EmptyString)
  else if cp <? 65536 then
    String (b (224 + N.shiftr cp 12))
      (String (b (128 + N.land (N.shiftr cp 6) 63))
         (String (b (128 + N.land cp 63)) EmptyString))
  else
    String (b (240 + N.shiftr cp 18))
      (String (b (128 + N.land (N.shiftr cp 12) 63))
         (String (b (128 + N.land (N.shiftr cp 6) 63))
            (String (b (128 + N.land cp 63)) EmptyString))).

Definition simple_escape (c : ascii) : option ascii :=
  let n := code c in
  if (n =? 34) || (n =? 92) || (n =? 47) then Some c
  else if n =? 98 then Some (ascii_of_N 8)
  else if n =? 102 then Some (ascii_of_N 12)
  else if n =? 110 then Some (ascii_of_N 10)
  else if n =? 114 then Some (ascii_of_N 13)
  else if n =? 116 then Some (ascii_of_N 9)
  else None.

(** The rest of a string after its opening quote: contents and what
    follows the closing quote. *)
Fixpoint scan_string (s : string) : option (string * string) :=
  match s with
  | EmptyString => None
  | String c rest =>
      if code c =? 34 then Some (EmptyString, rest)
      else if code c =? 92 then
        match rest with
        | String "u" (String h1 (String h2 (String h3 (String h4 rest4)))) =>
            match hex4_value h1 h2 h3 h4 with
            | None => None
            | Some hi =>
                let single :=
                  match scan_string rest4 with
                  | Some (body, after) => Some ((utf8 hi +:+ body)%string, after)
                  | None => None
                  end in
                if (55296 <=? hi) && (hi <? 56320) then
                  match rest4 with
                  | String b (String "u"
                      (String l1 (String l2 (String l3 (String l4 rest10))))) =>
                      match hex4_value l1 l2 l3 l4 with
                      | Some lo =>
                          if (code b =? 92) && (56320 <=? lo) && (lo <? 57344) then
                            match scan_string rest10 with
                            | Some (body, after) =>
                                Some ((utf8 (65536 + N.shiftl (hi - 55296) 10
                                             + (lo - 56320)) +:+ body)%string,
                                      after)
                            | None => None
                            end
                          else single
                      | None => single
                      end
                  | _ => single
                  end
                else single
            end
        | String e rest1 =>
            match simple_escape e, scan_string rest1 with
            | Some c', Some (body, after) => Some (String c' body, after)
            | _, _ => None
            end
        | EmptyString => None
        end
      else if code c <? 32 then None
      else
        match scan_string rest with
        | Some (body, after) => Some (String c body, after)
        | None => None
        end
  end.

(** A value, then what is left of the text. *)
Fixpoint parse_value (fuel : nat) (s : string) : option (pyval * string) :=
  match fuel with
  | O => None
  | S fuel' =>
      match skip_ws s with
      | EmptyString => None
      | String c rest =>
          let n := code c in
          if n =? 34 then
            match scan_string rest with
            | Some (body, after) => Some (PyStr body, after)
            | None => None
            end
          else if n =? 91 then
            match skip_ws rest with
            | String "]" after => Some (PyList [], after)
            | _ =>
                match parse_items fuel' rest with
                | Some (l, after) => Some (PyList l, after)
                | None => None
                end
            end
          else if n =? 123 then
            match skip_ws rest with
            | String "}" after => Some (PyDict [], after)
            | _ =>
                match parse_members fuel' rest [] with
                | Some (d, after) => Some (PyDict d, after)
                | None => None
                end
            end
          else if n =? 110 then
            match drop_prefix "null" (String c rest) with
            | Some after => Some (PyNone, after)
            | None => None
            end
          else if n =? 116 then
            match drop_prefix "true" (String c rest) with
            | Some after => Some (PyBool true, after)
            | None => None
            end
          else if n =? 102 then
            match drop_prefix "false" (String c rest) with
            | Some after => Some (PyBool false, after)
            | None => None
            end
          else parse_number (String c rest)
      end
  end
with parse_items (fuel : nat) (s : string) : option (list pyval * string) :=
  match fuel with
  | O => None
  | S fuel' =>
      match parse_value fuel' s with
      | None => None
      | Some (v, after) =>
          match skip_ws after with
          | String "," more =>
              match parse_items fuel' more with
              | Some (l, after') => Some (v :: l, after')
              | None => None
              end
          | String "]" after' => Some ([v], after')
          | _ => None
          end
      end
  end
with parse_members (fuel : nat) (s : string) (acc : pydict)
  : option (pydict * string) :=
  match fuel with
  | O => None
  | S fuel' =>
      match skip_ws s with
      | String q rest =>
          if code q =? 34 then
            match scan_string rest with
            | None => None
            | Some (key, after_key) =>
                match skip_ws after_key with
                | String ":" after_colon =>
                    match parse_value fuel' after_colon with
                    | None => None
                    | Some (v, after) =>
                        match skip_ws after with
                        | String "," more =>
                            parse_members fuel' more (dict_set acc key v)
                        | String "}" after' => Some (dict_set acc key v, after')
                        | _ => None
                        end
                    end
                | _ => None
                end
            end
          else None
      | EmptyString => None
      end
  end.

(** [json.loads]: one value, with nothing but white space after it. *)
Definition loads (s : string) : option pyval :=
  match parse_value (S (String.length s)) s with
  | Some (v, after) =>
      match skip_ws after with
      | EmptyString => Some v
      | _ => None
      end
  | None => None
  end.

(** *** [repr] and [format] *)

Fixpoint contains (c : N) (s : string) : bool :=
  match s with
  | EmptyString => false
  | String a rest => (code a =? c) || contains c rest
  end.

Fixpoint repr_body (q : N) (s : string) : string :=
  match s with
  | EmptyString => EmptyString
  | String c rest =>
      let n := code c in
      if (n =? q) || (n =? 92) then (backslash +:+ String c (repr_body q rest))%string
      else if n =? 10 then (backslash +:+ "n" +:+ repr_body q rest)%string
      else if n =? 13 then (backslash +:+ "r" +:+ repr_body q rest)%string
      else if n =? 9 then (backslash +:+ "t" +:+ repr_body q rest)%string
      else if (n <? 32) || (n =? 127)
      then (backslash +:+ "x" +:+ hex2 n +:+ repr_body q rest)%string
      else String c (repr_body q rest)
  end.

Definition repr_str (s : string) : string :=
  if contains 39 s && negb (contains 34 s)
  then (dquote +:+ repr_body 34 s +:+ dquote)%string
  else (squote +:+ repr_body 39 s +:+ squote)%string.

Fixpoint repr (v : pyval) : string :=
  match v with
  | PyNone => "None"
  | PyBool true => "True"
  | PyBool false => "False"
  | PyInt z => pretty z
  | PyFloat q => float_repr q
  | PyStr s => repr_str s
  | PyList [] => "[]"
  | PyList (x :: xs) =>
      ("[" +:+ repr x +:+
       (fix items (l : list pyval) : string :=
          match l with
          | [] => EmptyString
          | y :: l' => ", " +:+ repr y +:+ items l'
          end) xs +:+ "]")%string
  | PyDict [] => "{}"
  | PyDict ((k, x) :: xs) =>
      ("{" +:+ repr_str k +:+ ": " +:+ repr x +:+
       (fix members (l : list (string * pyval)) : string :=
          match l with
          | [] => EmptyString
          | (k', y) :: l' => ", " +:+ repr_str k' +:+ ": " +:+ repr y +:+ members l'
          end) xs +:+ "}")%string
  end.

(** Rounding to the nearest integer, ties to even. *)
Definition round_half_even (q : Q) : Z :=
  let n := Qnum q in
  let d := Z.pos (Qden q) in
  let fl := (n / d)%Z in
  let r2 := (2 * (n mod d))%Z in
  if (r2 <? d)%Z then fl
  else if (d <? r2)%Z then (fl + 1)%Z
  else if Z.even fl then fl else (fl + 1)%Z.

Definition format_1f (q : Q) : string :=
  let t := round_half_even (q * 10) in
  let a := Z.abs t in
  ((if (t <? 0)%Z || ((t =? 0)%Z && (Qnum q <? 0)%Z) then "-" else "")
   +:+ pretty (a / 10)%Z +:+ "." +:+ pretty (a mod 10)%Z)%string.

Definition lib : Client.PyLib := {|
  Client.json_loads := loads;
  Client.json_dumps := fun indent v => dumps (Z.to_nat indent) 0 v;
  Client.py_repr := repr;
  Client.format_1f := format_1f
|}.

End RefLib.

(** ** A sample desk *)

Module Desk.

Import Client.

Definition q (s : string) : string := dquote +:+ s +:+ dquote.

Definition song : bytes := [Byte.x49; Byte.x44; Byte.x33].

Definition healthy : string :=
  "{" +:+ q "status" +:+ ":" +:+ q "healthy" +:+ "," +:+
  q "model" +:+ ":" +:+ q "audio-flamingo-3" +:+ "," +:+
  q "cached" +:+ ":true}".

(** A machine that holds [song.mp3] and nothing else, with no
    [MUSICMIND_ENDPOINT] set; a service that answers every upload with
    [answer] and the health probe with the healthy document. *)
Definition world (answer : result HttpResponse) : World := {|
  getenv := fun _ => None;
  path_exists := fun path => String.eqb path "song.mp3";
  open_rb := fun path =>
    if String.eqb path "song.mp3" then Ok song
    else Raise (Exn FileNotFoundError
                  ("[Errno 2] No such file or directory: '" +:+ path +:+ "'"));
  session_post := fun _ => answer;
  session_get := fun get_url _ =>
    Ok {| status_code := 200; reason := "OK"; url := get_url; text := healthy |}
|}.

Definition lyrics_200 : HttpResponse := {|
  status_code := 200; reason := "OK";
  url := DEFAULT_URL +:+ "/transcribe";
  text := "{" +:+ q "lyrics" +:+ ":" +:+ q "la la la" +:+ "}"
|}.

Definition analysis_200 : HttpResponse := {|
  status_code := 200; reason := "OK";
  url := DEFAULT_URL +:+ "/analyze";
  text := "{" +:+ q "analysis" +:+ ":" +:+ q "House, energy 8/10." +:+ "," +:+
          q "tempo_bpm" +:+ ":120.5," +:+ q "duration_seconds" +:+ ":30.0}"
|}.


(** [musicmind transcribe missing.mp3], [musicmind analyze song.mp3 --json]
    and [musicmind health missing.mp3 --json] once parsed. *)
Definition transcribe_missing : Namespace := {|
  arg_command := CmdTranscribe; arg_audio_file := Some "missing.mp3";
  arg_prompt := None; arg_endpoint := DEFAULT_URL; arg_json := false |}.

Definition analyze_json : Namespace := {|
  arg_command := CmdAnalyze; arg_audio_file := Some "song.mp3";
  arg_prompt := None; arg_endpoint := DEFAULT_URL; arg_json := true |}.





End Desk.

(** ** A sample deployment *)

Module Sample.

Import Server.

(** A worker whose model answers any non-empty upload, whose decoder yields
    a 50-second sound at 4 samples per second, and whose beat tracker hears
    120 BPM. *)
Definition svc : Services := {|
  infer := fun prompt audio_path cfg fs =>
    match fs !! audio_path with
    | None => Raise (Exn FileNotFoundError audio_path)
    | Some [] => Raise (Exn RuntimeError "empty audio")
    | Some _ =>
        if String.eqb prompt TRANSCRIBE_PROMPT then Ok "la la la"
        else Ok "House, energy 8/10."
    end;
  decode := fun content =>
    match content with
    | [] => Raise (Exn RuntimeError "no frames")
    | [_] => Raise (Exn RuntimeError "unknown format")
    | _ => Ok {| native_sr := 4; frames := repeat 0%Q 200 |}
    end;
  beat_track := fun y sr => Ok 120%Q;
  mkstemp_name := fun fs => "/tmp/tmpk3v9_x2a.wav"
|}.

Definition song : bytes := [Byte.x52; Byte.x49; Byte.x46; Byte.x46].
Definition noise : bytes := [Byte.x00].
Definition disk : filesystem := {[ "/cache/hf/version.txt" := [Byte.x31] ]}.

(** The same disk with two uploads already in place. *)
Definition studio : filesystem :=
  <["/in/noise.wav" := noise]> (<["/in/song.wav" := song]> disk).

End Sample.

(** ** The model cache: [AudioFlamingoMusic._get_dir_size] *)

Module Volume.

(** What a path can name: a regular file of some size, a symbolic link
    whose target is gone, a symbolic link to a directory (with the entries
    of that directory), or a directory with its named entries. *)
Inductive node : Type :=
  | File (size : N)
  | Dangling
  | DirLink (target : list (string * node))
  | Dir (entries : list (string * node)).

(** [entry.is_dir()], which follows links *)
Definition is_dir (n : node) : bool :=
  match n with
  | Dir _ | DirLink _ => true
  | File _ | Dangling => false
  end.

(** [os.path.exists], which follows links *)
Definition os_path_exists (n : node) : bool :=
  match n with
  | Dangling => false
  | _ => true
  end.

(** [os.path.getsize]: the size of a regular file, [OSError] without a
    target.  The size a directory reports for itself is not modelled. *)
Definition os_path_getsize (fp : string) (n : node) : result N :=
  match n with
  | File size => Ok size
  | Dangling => Raise (Exn FileNotFoundError fp)
  | DirLink _ | Dir _ => Ok 0%N
  end.

Fixpoint ends_with_slash (s : string) : bool :=
  match s with
  | EmptyString => false
  | String c EmptyString => Ascii.eqb c "/"
  | String _ rest => ends_with_slash rest
  end.

(** [os.path.join(a, b)] *)
Definition os_path_join (a b : string) : string :=
  match b with
  | String "/" _ => b
  | _ =>
      match a with
      | EmptyString => b
      | _ => if ends_with_slash a then a +:+ b else a +:+ "/" +:+ b
      end
  end.

(** One step of [os.walk]: the directory, the names of its
    sub-directories, its other entries.  An entry stands with what its
    joined path names. *)
Definition triple : Type := string * list string * list (string * node).

Definition dirnames (entries : list (string * node)) : list string :=
  map fst (filter (fun e => is_dir (snd e)) entries).

Definition filenames (entries : list (string * node)) : list (string * node) :=
  filter (fun e => negb (is_dir (snd e))) entries.

(** [os.walk(top)], top down.  [top] itself is scanned as [os.scandir]
    opens it, so a [top] that is a link to a directory is walked like the
    directory; below [top] a link to a directory is named among the
    sub-directories and not entered ([followlinks] is false).  A [top]
    that is not a directory yields nothing. *)
Fixpoint os_walk (top : string) (n : node) : list triple :=
  match n with
  | Dir entries | DirLink entries =>
      (top, dirnames entries, filenames entries)
      :: (fix below (es : list (string * node)) : list triple :=
            match es with
            | [] => []
            | (name, child) :: es' =>
                match child with
                | Dir _ => (os_walk (os_path_join top name) child ++ below es')%list
                | _ => below es'
                end
            end) entries
  | _ => []
  end.

(** The inner loop: [for f in filenames: ...] *)
Fixpoint add_files (dirpath : string) (files : list (string * node)) (total : N)
  : result N :=
  match files with
  | [] => Ok total
  | (f, n) :: rest =>
      let fp := os_path_join dirpath f in
      if os_path_exists n then
        let* size := os_path_getsize fp n in
        add_files dirpath rest (total + size)%N
      else add_files dirpath rest total
  end.

(** The outer loop: [for dirpath, dirnames, filenames in os.walk(path)] *)
Fixpoint add_walk (steps : list triple) (total : N) : result N :=
  match steps with
  | [] => Ok total
  | (dirpath, _, files) :: rest =>
      let* total' := add_files dirpath files total in
      add_walk rest total'
  end.

(** [_get_dir_size(path)], [at_path] being what [path] names, if anything *)
Definition _get_dir_size (path : string) (at_path : option node) : result N :=
  match at_path with
  | Some n => add_walk (os_walk path n) 0%N
  | None => Ok 0%N
  end.

(** The bytes of the regular files of a tree, links to directories not
    followed. *)
Fixpoint tree_size (n : node) : N :=
  match n with
  | File size => size
  | Dangling | DirLink _ => 0%N
  | Dir entries =>
      (fix sum (es : list (string * node)) : N :=
         match es with
         | [] => 0%N
         | (_, child) :: es' => (tree_size child + sum es')%N
         end) entries
  end.

(** The bytes a directory holds in its own files, and the bytes its
    sub-directories hold. *)
Definition own_bytes (entries : list (string * node)) : N :=
  fold_right
    (fun e acc => ((if is_dir (snd e) then 0 else tree_size (snd e)) + acc)%N)
    0%N entries.

Definition nested_bytes (entries : list (string * node)) : N :=
  fold_right
    (fun e acc =>
       (match snd e with Dir _ => tree_size (snd e) | _ => 0 end + acc)%N)
    0%N entries.

Definition cache_entries : list (string * node) :=
  [("hf", Dir [("version.txt", File 1); ("stale", Dangling)]);
   ("transformers",
    Dir [("model.safetensors", File 16000000000);
         ("config.json", File 1200);
         ("snapshots", DirLink [("weights.bin", File 7000)])]);
   ("README", File 40)].

Definition cache : node := Dir cache_entries.

End Volume.

(** ** The local entry point of the deployment: [main] of [modal_app.py] *)

Module Entrypoint.

Import Server.

Section Local.

Variable svc : Services.
Variable lib : Client.PyLib.

(** The branch that runs for [command], as one block: the remote call, the
    lookups and the prints. *)
Definition dispatch (fs : filesystem) (audio_file command : string)
  : Client.io unit :=
  if String.eqb command "analyze" then
    Client.io_bind (Client.lift (analyze_music svc fs audio_file None))
      (fun result =>
    Client.io_bind (Client.lift (Client.getitem (PyDict result) "analysis"))
      (fun analysis =>
    Client.io_bind
      (Client.print ("🎵 Analysis:" +:+ nl +:+ Client.py_str lib analysis))
      (fun _ =>
    Client.io_bind (Client.lift (Client.getitem (PyDict result) "tempo_bpm"))
      (fun tempo =>
    Client.io_bind (Client.lift (Client.format_spec_1f lib tempo))
      (fun tempo_s =>
    Client.print (nl +:+ "📊 Tempo: " +:+ tempo_s +:+ " BPM"))))))
  else if String.eqb command "party-vibe" then
    Client.io_bind (Client.lift (party_vibe_check svc fs audio_file))
      (fun result =>
    Client.io_bind (Client.lift (Client.getitem (PyDict result) "analysis"))
      (fun analysis =>
    Client.print ("🎉 Party Vibe Check:" +:+ nl +:+ Client.py_str lib analysis)))
  else if String.eqb command "transcribe" then
    Client.io_bind (Client.lift (transcribe_lyrics svc fs audio_file))
      (fun result =>
    Client.io_bind (Client.lift (Client.getitem (PyDict result) "lyrics"))
      (fun lyrics =>
    Client.print ("🎤 Lyrics:" +:+ nl +:+ Client.py_str lib lyrics)))
  else if String.eqb command "caption" then
    Client.io_bind (Client.lift (generate_caption svc fs audio_file))
      (fun result =>
    Client.io_bind (Client.lift (Client.getitem (PyDict result) "analysis"))
      (fun analysis =>
    Client.print ("📱 Caption:" +:+ nl +:+ Client.py_str lib analysis)))
  else Client.lift (Ok tt).

(** [main] on the whole of [sys.argv].  An exception nothing catches ends
    the process with status 1, its traceback going to stderr. *)
Definition main (fs : filesystem) (argv : list string) : Client.Run :=
  match argv with
  | [] | [_] =>
      {| Client.exit_code := 1;
         Client.events :=
           [Client.Print "Usage: modal run modal_app.py -- <audio_file> [command]";
            Client.Print "Commands: analyze, party-vibe, transcribe, caption"] |}
  | _ :: audio_file :: rest =>
      let command := match rest with
                     | c :: _ => c
                     | [] => "analyze"
                     end in
      match dispatch fs audio_file command with
      | (ev, Ok _) => {| Client.exit_code := 0; Client.events := ev |}
      | (ev, Raise _) => {| Client.exit_code := 1; Client.events := ev |}
      end
  end.

End Local.

(** The four commands [main] knows. *)
Definition known (command : string) : bool :=
  String.eqb command "analyze" || String.eqb command "party-vibe"
  || String.eqb command "transcribe" || String.eqb command "caption".

(** The inference method each of them calls on the file. *)
Definition method (svc : Services) (command : string) (fs : filesystem)
    (audio_file : string) : result pydict :=
  if String.eqb command "analyze" then analyze_music svc fs audio_file None
  else if String.eqb command "party-vibe" then party_vibe_check svc fs audio_file
  else if String.eqb command "transcribe" then transcribe_lyrics svc fs audio_file
  else generate_caption svc fs audio_file.

End Entrypoint.

(** ** The demo: [demo.py] *)

Module Demo.

Import Client.

Section Demo.

Variable w : World.
Variable lib : PyLib.

(** The [try] block of the health check. *)
Definition probe (mind : MusicMind) : io unit :=
  let! health := health_check w lib mind in
  let! model := lift (getitem health "model") in
  print ("   ✅ " +:+ py_str lib model +:+ " is ready!").

Definition tour : list event :=
  [Print (nl +:+ "2. Available Commands:");
   Print "   • analyze <file> - Full music analysis";
   Print "   • party-vibe <file> - Party suitability check";
   Print "   • transcribe <file> - Lyrics extraction";
   Print "   • caption <file> - Social media caption";
   Print (nl +:+ "3. Example Usage:");
   Print "   python3 musicmind.py analyze song.mp3";
   Print "   python3 musicmind.py party-vibe drop.wav";
   Print (nl +:+ "✨ Ready to understand music with AI!")].

(** [main]: it returns on both paths, so the process ends with status 0. *)
Definition main : Run :=
  let mind := MusicMind_init w None in
  let heading :=
    [Print "🎵 MusicMind Demo"; Print (str_repeat "=" 50);
     Print (nl +:+ "1. Health Check...")] in
  match probe mind with
  | (ev, Ok _) => {| exit_code := 0; events := heading ++ ev ++ tour |}
  | (ev, Raise e) =>
      {| exit_code := 0;
         events := heading ++ ev ++
           [Print ("   ⚠️  Service not deployed yet: " +:+ exc_msg e);
            Print "   Run: cd modal_deploy && modal deploy modal_app.py"] |}
  end.

End Demo.

End Demo.

(** ** Which command reads which endpoint *)

Module Contract.

(** The command of the client that posts to an endpoint of the server. *)
Definition command_for (ep : Server.endpoint) : Client.command :=
  match ep with
  | Server.Analyze _ => Client.CmdAnalyze
  | Server.PartyVibe => Client.CmdPartyVibe
  | Server.Transcribe => Client.CmdTranscribe
  | Server.Caption => Client.CmdCaption
  end.

(** An upload posted to [route] is answered with the document [v]: the
    file opens, the request gets a response, the status is no HTTP error
    and the body decodes to [v]. *)
Definition answered (w : Client.World) (lib : Client.PyLib)
    (self : Client.MusicMind) (route audio_path : string)
    (data : list (string * string)) (v : pyval) : Prop :=
  exists (f : bytes) (resp : Client.HttpResponse),
    Client.open_rb w audio_path = Ok f
    /\ Client.session_post w
         {| Client.post_url := Client.endpoint self +:+ route;
            Client.post_files := [("file", f)];
            Client.post_data := data; Client.post_timeout := 120 |}
       = Ok resp
    /\ (Client.status_code resp < 400 \/ 600 <= Client.status_code resp)
    /\ Client.json_loads lib (Client.text resp) = Some v.

(** The health probe is answered with the document [v]. *)
Definition probed (w : Client.World) (lib : Client.PyLib)
    (self : Client.MusicMind) (v : pyval) : Prop :=
  exists resp : Client.HttpResponse,
    Client.session_get w (Client.endpoint self +:+ "/health") 10 = Ok resp
    /\ (Client.status_code resp < 400 \/ 600 <= Client.status_code resp)
    /\ Client.json_loads lib (Client.text resp) = Some v.

End Contract.

(** ** More samples *)

Module Bench.

Import Client.




End Bench.

(** * Properties of the server *)

Module ServerProps.

Import Server.

Lemma Qred_le (a b : Q) : (a <= b)%Q -> (Qred a <= b)%Q.
Proof. intros H. now rewrite Qred_correct. Qed.

Lemma unlink_after_create (svc : Services) (fs : filesystem) (file : bytes) :
  os_unlink (<[mkstemp_name svc fs := file]> fs) (mkstemp_name svc fs)
  = Ok (delete (mkstemp_name svc fs) fs).
Proof.
  unfold os_unlink. rewrite lookup_insert_eq. now rewrite delete_insert_eq.
Qed.

(** Every route goes through [upload_route] with its own inference call. *)
Lemma serve_upload_route (svc : Services) (ep : endpoint) (file : bytes)
    (fs : filesystem) :
  serve svc ep file fs = upload_route svc (handler svc ep) file fs.
Proof. now destruct ep. Qed.

Lemma upload_route_unfold (svc : Services) method (file : bytes)
    (fs : filesystem) :
  upload_route svc method file fs =
  {| response := Ok
       match method (<[mkstemp_name svc fs := file]> fs) (mkstemp_name svc fs) with
       | Ok result => JSONResponse result 200
       | Raise e => JSONResponse [("error", PyStr (exc_msg e))] 500
       end;
     files_after := delete (mkstemp_name svc fs) fs;
     fs_log := [Created (mkstemp_name svc fs); Unlinked (mkstemp_name svc fs)] |}.
Proof.
  unfold upload_route, NamedTemporaryFile.
  now rewrite unlink_after_create.
Qed.

(** C1. On each of the four task endpoints, when the inference call of the
    route raises an exception [e], the route function still returns: its
    response is the JSON object [{"error": str(e)}] with status 500. *)
Theorem inference_error_is_json_500 (svc : Services) (ep : endpoint)
    (file : bytes) (fs : filesystem) (e : exn) :
  handler svc ep (<[mkstemp_name svc fs := file]> fs) (mkstemp_name svc fs)
    = Raise e ->
  response (serve svc ep file fs)
    = Ok (JSONResponse [("error", PyStr (exc_msg e))] 500).
Proof.
  intros H. rewrite serve_upload_route, upload_route_unfold. simpl.
  now rewrite H.
Qed.

Lemma inference_error_is_json_500_witness :
  response (serve Sample.svc PartyVibe [] Sample.disk)
    = Ok (JSONResponse [("error", PyStr "empty audio")] 500).
Proof.
  apply (inference_error_is_json_500 Sample.svc PartyVibe [] Sample.disk
           (Exn RuntimeError "empty audio")).
  vm_compute. reflexivity.
Defined.

(** With room for the upload, handling a request on a task endpoint
    creates exactly one temporary file and removes it again, whether the
    inference call returns or raises: the log is one creation followed by
    the removal of the same path, and the file system ends as it
    started. *)
Lemma temp_file_created_once_and_removed (svc : Services) (ep : endpoint)
    (file : bytes) (fs : filesystem) :
  fs !! mkstemp_name svc fs = None ->
  fs_log (serve svc ep file fs)
    = [Created (mkstemp_name svc fs); Unlinked (mkstemp_name svc fs)]
  /\ files_after (serve svc ep file fs) = fs.
Proof.
  intros Hfresh. rewrite serve_upload_route, upload_route_unfold. simpl.
  split; [reflexivity | now apply delete_id].
Qed.

(** With room for the upload the route is the one of [Server]. *)
Lemma serve_with_room (svc : Services) (free : nat) (ep : endpoint)
    (file : bytes) (fs : filesystem) :
  (length file <= free)%nat ->
  Storage.serve svc free ep file fs = serve svc ep file fs.
Proof.
  intros Hroom. rewrite serve_upload_route.
  unfold Storage.serve, Storage.upload_route, Storage.store_upload,
    upload_route, NamedTemporaryFile.
  now rewrite (proj2 (Nat.leb_le _ _) Hroom).
Qed.

(** Without room the route raises before its [try]. *)
Lemma serve_without_room (svc : Services) (free : nat) (ep : endpoint)
    (file : bytes) (fs : filesystem) :
  (free < length file)%nat ->
  Storage.serve svc free ep file fs
  = {| response := Raise (Exn OSError "[Errno 28] No space left on device");
       files_after := <[mkstemp_name svc fs := firstn free file]> fs;
       fs_log := [Created (mkstemp_name svc fs)] |}.
Proof.
  intros Hfull.
  unfold Storage.serve, Storage.upload_route, Storage.store_upload.
  now rewrite (proj2 (Nat.leb_gt _ _) Hfull).
Qed.

(** C5, a defect of the code.  The temporary file is created and written
    before the [try] whose [finally] clause removes it.  For an upload
    that does not fit in the temporary directory the route raises while
    storing it: no clause of the [try] runs, the log holds the creation of
    the file and no removal, and the file is still on disk, with the bytes
    that fitted, when the request is over. *)
Theorem temp_file_left_when_upload_is_not_stored (svc : Services)
    (free : nat) (ep : endpoint) (file : bytes) (fs : filesystem) :
  fs !! mkstemp_name svc fs = None ->
  (free < length file)%nat ->
  response (Storage.serve svc free ep file fs)
    = Raise (Exn OSError "[Errno 28] No space left on device")
  /\ fs_log (Storage.serve svc free ep file fs)
      = [Created (mkstemp_name svc fs)]
  /\ files_after (Storage.serve svc free ep file fs) !! mkstemp_name svc fs
      = Some (firstn free file)
  /\ files_after (Storage.serve svc free ep file fs) <> fs.
Proof.
  intros Hfresh Hfull. rewrite serve_without_room by assumption. simpl.
  repeat split.
  - apply lookup_insert_eq.
  - intros H.
    apply (f_equal (fun m : filesystem => m !! mkstemp_name svc fs)) in H.
    rewrite lookup_insert_eq in H. congruence.
Qed.

Lemma temp_file_left_when_upload_is_not_stored_witness :
  response (Storage.serve Sample.svc 2 Transcribe Sample.song Sample.disk)
    = Raise (Exn OSError "[Errno 28] No space left on device")
  /\ fs_log (Storage.serve Sample.svc 2 Transcribe Sample.song Sample.disk)
      = [Created "/tmp/tmpk3v9_x2a.wav"]
  /\ files_after (Storage.serve Sample.svc 2 Transcribe Sample.song
                    Sample.disk) !! "/tmp/tmpk3v9_x2a.wav"
      = Some [Byte.x52; Byte.x49]
  /\ files_after (Storage.serve Sample.svc 2 Transcribe Sample.song
                    Sample.disk) <> Sample.disk.
Proof.
  apply (temp_file_left_when_upload_is_not_stored Sample.svc 2 Transcribe
           Sample.song Sample.disk);
    [vm_compute; reflexivity | simpl; lia].
Defined.

(** C6. A successful call of the transcription route returns a JSON object
    whose only field is [lyrics], a string; it has no [tempo_bpm] and no
    [duration_seconds]. *)
Theorem transcribe_returns_only_lyrics (svc : Services) (file : bytes)
    (fs : filesystem) (r : Response) :
  response (transcribe svc file fs) = Ok r ->
  status_code r = 200 ->
  (exists lyrics : string, content r = [("lyrics", PyStr lyrics)])
  /\ dict_keys (content r) = ["lyrics"]
  /\ dict_get (content r) "tempo_bpm" = None
  /\ dict_get (content r) "duration_seconds" = None.
Proof.
  unfold transcribe. rewrite upload_route_unfold. simpl.
  unfold transcribe_lyrics.
  destruct (infer svc _ _ _ _) as [lyrics | e]; simpl;
    intros [= <-]; simpl; intros Hstatus; [| discriminate].
  repeat split; eauto.
Qed.

Lemma transcribe_returns_only_lyrics_witness :
  (exists lyrics : string,
      [("lyrics", PyStr "la la la")] = [("lyrics", PyStr lyrics)])
  /\ dict_keys [("lyrics", PyStr "la la la")] = ["lyrics"]
  /\ dict_get [("lyrics", PyStr "la la la")] "tempo_bpm" = None
  /\ dict_get [("lyrics", PyStr "la la la")] "duration_seconds" = None.
Proof.
  apply (transcribe_returns_only_lyrics Sample.svc Sample.song Sample.disk
           (JSONResponse [("lyrics", PyStr "la la la")] 200)).
  - vm_compute. reflexivity.
  - reflexivity.
Defined.

(** C7. The party route is the general analysis route run with the fixed
    party prompt, with [vibe_check = true] added to a successful result,
    which therefore has the fields [analysis], [tempo_bpm],
    [duration_seconds] and [vibe_check], in this order. *)
Theorem party_vibe_refines_analysis (svc : Services) (file : bytes)
    (fs : filesystem) :
  party_vibe svc file fs = party_vibe_as_specified svc file fs
  /\ (forall r : Response,
        response (party_vibe svc file fs) = Ok r ->
        status_code r = 200 ->
        exists (analysis : string) (tempo duration : pyval),
          content r = [("analysis", PyStr analysis); ("tempo_bpm", tempo);
                       ("duration_seconds", duration);
                       ("vibe_check", PyBool true)]).
Proof.
  unfold party_vibe_as_specified, party_vibe, analyze.
  rewrite !upload_route_unfold. simpl. unfold party_vibe_check.
  destruct (analyze_music svc _ _ _) as [result | e] eqn:Hresult; simpl.
  - split; [reflexivity |]. intros r [= <-] _. simpl.
    unfold analyze_music in Hresult.
    destruct (infer svc _ _ _ _) as [text | e]; simpl in Hresult;
      [| discriminate].
    destruct (audio_features svc _ _) as [[tempo duration] | e];
      injection Hresult as <-; simpl; eauto.
  - split; [reflexivity |]. intros r [= <-]. discriminate.
Qed.

Lemma party_vibe_refines_analysis_witness :
  party_vibe Sample.svc Sample.song Sample.disk
    = party_vibe_as_specified Sample.svc Sample.song Sample.disk
  /\ response (party_vibe Sample.svc Sample.song Sample.disk)
     = Ok (JSONResponse
             [("analysis", PyStr "House, energy 8/10.");
              ("tempo_bpm", PyFloat 120%Q);
              ("duration_seconds", PyFloat 30%Q);
              ("vibe_check", PyBool true)] 200).
Proof.
  split.
  - apply (party_vibe_refines_analysis Sample.svc Sample.song Sample.disk).
  - vm_compute. reflexivity.
Defined.

Lemma analyze_music_inv (svc : Services) (fs : filesystem)
    (audio_path : string) (prompt : option string) (result : pydict) :
  analyze_music svc fs audio_path prompt = Ok result ->
  exists text : string,
    result = [("analysis", PyStr text);
              ("tempo_bpm",
               match audio_features svc fs audio_path with
               | Ok (tempo, _) => tempo_field (PyFloat tempo)
               | Raise _ => PyInt 0
               end);
              ("duration_seconds",
               match audio_features svc fs audio_path with
               | Ok (_, duration) => PyFloat duration
               | Raise _ => PyInt 0
               end)].
Proof.
  unfold analyze_music.
  destruct (infer svc _ _ _ _) as [text | e]; simpl; [| discriminate].
  destruct (audio_features svc fs audio_path) as [[tempo duration] | e];
    intros [= <-]; now exists text.
Qed.

Lemma audio_features_tempo (svc : Services) (fs : filesystem)
    (audio_path : string) (tempo duration : Q) :
  audio_features svc fs audio_path = Ok (tempo, duration) ->
  exists y sr, beat_track svc y sr = Ok tempo.
Proof.
  unfold audio_features.
  destruct (librosa_load svc fs audio_path 30) as [[y sr] | e]; simpl;
    [| discriminate].
  destruct (beat_track svc y sr) as [t | e] eqn:Hbeat; simpl; [| discriminate].
  intros [= <- _]. eauto.
Qed.



Lemma librosa_load_inv (svc : Services) (fs : filesystem) (path : string)
    (duration : Z) (y : list Q) (sr : positive) :
  librosa_load svc fs path duration = Ok (y, sr) ->
  exists (content : bytes) (a : Audio),
    fs !! path = Some content /\ decode svc content = Ok a
    /\ sr = native_sr a
    /\ y = firstn (Z.to_nat (duration * Z.pos sr)) (frames a).
Proof.
  unfold librosa_load.
  destruct (fs !! path) as [content |]; [| discriminate].
  destruct (decode svc content) as [a | e] eqn:Hdecode; simpl;
    [| discriminate].
  intros [= <- <-]. now exists content, a.
Qed.

Lemma audio_features_duration (svc : Services) (fs : filesystem)
    (audio_path : string) (tempo duration : Q) :
  audio_features svc fs audio_path = Ok (tempo, duration) ->
  exists y sr,
    librosa_load svc fs audio_path 30 = Ok (y, sr)
    /\ duration = Qred (Z.of_nat (length y) # sr).
Proof.
  unfold audio_features.
  destruct (librosa_load svc fs audio_path 30) as [[y sr] | e]; simpl;
    [| discriminate].
  destruct (beat_track svc y sr) as [t | e]; simpl; [| discriminate].
  intros [= _ <-]. now exists y, sr.
Qed.

(** C9. [analyze_music] loads the first 30 seconds of the audio at most:
    what it keeps of the decoded samples is their prefix of length 30 times
    the sampling rate, so [duration_seconds] is a number that never exceeds
    30; and when the feature extraction raises, [duration_seconds] and
    [tempo_bpm] are both 0. *)
Theorem duration_at_most_30_seconds (svc : Services) (fs : filesystem)
    (audio_path : string) (prompt : option string) :
  (forall (y : list Q) (sr : positive),
      librosa_load svc fs audio_path 30 = Ok (y, sr) ->
      (exists (content : bytes) (a : Audio),
          fs !! audio_path = Some content /\ decode svc content = Ok a
          /\ sr = native_sr a
          /\ y = firstn (Z.to_nat (30 * Z.pos sr)) (frames a))
      /\ Z.of_nat (length y) <= 30 * Z.pos sr)
  /\ (forall result : pydict,
        analyze_music svc fs audio_path prompt = Ok result ->
        exists (d : pyval) (q : Q),
          dict_get result "duration_seconds" = Some d
          /\ num_value d = Some q /\ (q <= 30)%Q)
  /\ (forall (result : pydict) (e : exn),
        analyze_music svc fs audio_path prompt = Ok result ->
        audio_features svc fs audio_path = Raise e ->
        dict_get result "duration_seconds" = Some (PyInt 0)
        /\ dict_get result "tempo_bpm" = Some (PyInt 0)).
Proof.
  assert (Hload : forall (y : list Q) (sr : positive),
             librosa_load svc fs audio_path 30 = Ok (y, sr) ->
             Z.of_nat (length y) <= 30 * Z.pos sr).
  { intros y sr Hy.
    destruct (librosa_load_inv _ _ _ _ _ _ Hy) as (content & a & _ & _ & _ & ->).
    rewrite length_firstn. lia. }
  split; [| split].
  - intros y sr Hy. split; [now apply librosa_load_inv | now apply Hload].
  - intros result Hresult.
    destruct (analyze_music_inv _ _ _ _ _ Hresult) as [text ->]. simpl.
    destruct (audio_features svc fs audio_path) as [[tempo duration] | e]
      eqn:Hfeat.
    + destruct (audio_features_duration _ _ _ _ _ Hfeat) as (y & sr & Hy & ->).
      eexists _, _. repeat split. apply Qred_le.
      unfold Qle. simpl. specialize (Hload y sr Hy). lia.
    + exists (PyInt 0), (inject_Z 0). repeat split. now unfold Qle.
  - intros result e Hresult Hfeat.
    destruct (analyze_music_inv _ _ _ _ _ Hresult) as [text ->].
    now rewrite Hfeat.
Qed.

Lemma duration_at_most_30_seconds_witness :
  (exists (d : pyval) (q : Q),
      dict_get [("analysis", PyStr "House, energy 8/10.");
                ("tempo_bpm", PyFloat 120%Q);
                ("duration_seconds", PyFloat 30%Q)] "duration_seconds" = Some d
      /\ num_value d = Some q /\ (q <= 30)%Q)
  /\ (dict_get [("analysis", PyStr "House, energy 8/10.");
                ("tempo_bpm", PyInt 0);
                ("duration_seconds", PyInt 0)] "duration_seconds"
       = Some (PyInt 0)
      /\ dict_get [("analysis", PyStr "House, energy 8/10.");
                   ("tempo_bpm", PyInt 0);
                   ("duration_seconds", PyInt 0)] "tempo_bpm"
       = Some (PyInt 0)).
Proof.
  split.
  - apply (duration_at_most_30_seconds Sample.svc Sample.studio
             "/in/song.wav" None).
    vm_compute. reflexivity.
  - apply (duration_at_most_30_seconds Sample.svc Sample.studio
             "/in/noise.wav" None)
      with (e := Exn RuntimeError "unknown format").
    + vm_compute. reflexivity.
    + vm_compute. reflexivity.
Defined.

End ServerProps.

(** * Properties of the client *)

Module ClientProps.

Import Client.

Lemma post_file_unfold (w : World) (lib : PyLib) (self : MusicMind)
    (route audio_path : string) (data : list (string * string)) :
  post_file w lib self route audio_path data =
  match open_rb w audio_path with
  | Raise e => ([], Raise e)
  | Ok f =>
      let req := {| post_url := endpoint self +:+ route;
                    post_files := [("file", f)];
                    post_data := data; post_timeout := 120 |} in
      ([Post req], decoded lib (session_post w req))
  end.
Proof.
  unfold post_file, decoded, lift, io_bind, bind.
  destruct (open_rb w audio_path) as [f | e]; [| reflexivity].
  simpl. destruct (session_post w _) as [response | e]; [| reflexivity].
  destruct (raise_for_status response) as [[] | e]; [| reflexivity].
  now destruct (response_json lib response).
Qed.

Lemma health_check_unfold (w : World) (lib : PyLib) (self : MusicMind) :
  health_check w lib self =
  ([Get (endpoint self +:+ "/health")],
   decoded lib (session_get w (endpoint self +:+ "/health") 10)).
Proof.
  unfold health_check, decoded, lift, io_bind, bind.
  destruct (session_get w _ 10) as [response | e]; [| reflexivity].
  destruct (raise_for_status response) as [[] | e]; [| reflexivity].
  now destruct (response_json lib response).
Qed.

Ltac split_getitem :=
  repeat match goal with
  | |- context [getitem ?v ?k] =>
      let x := fresh "x" in
      let e := fresh "e" in
      destruct (getitem v k) as [x | e]; [destruct x |];
      cbn -[str_repeat String.append fits_float]
  | |- context [fits_float ?z] =>
      destruct (fits_float z); cbn -[str_repeat String.append fits_float]
  end.

Lemma task_block_open_error w lib mind args path e :
  open_rb w path = Raise e ->
  arg_command args <> CmdHealth ->
  task_block w lib mind args path = ([], Raise e).
Proof.
  intros Hopen Hcmd. unfold task_block.
  destruct (arg_command args); try congruence;
    unfold analyze, party_vibe, transcribe, caption;
    rewrite post_file_unfold, Hopen; reflexivity.
Qed.

Lemma task_block_after_open w lib mind args path f :
  arg_command args <> CmdHealth ->
  open_rb w path = Ok f ->
  let req := upload_request mind args f in
  match decoded lib (session_post w req) with
  | Raise e => task_block w lib mind args path = ([Post req], Raise e)
  | Ok v =>
      if arg_json args
      then task_block w lib mind args path
           = ([Post req; Print (json_dumps lib 2 v)], Ok tt)
      else exists ev r,
          task_block w lib mind args path = (Post req :: ev, r)
          /\ network ev = []
          /\ is_ok r = renderable (arg_command args) v
  end.
Proof.
  intros Hcmd Hopen. unfold task_block, upload_request.
  destruct (arg_command args); try congruence;
    unfold analyze, party_vibe, transcribe, caption;
    rewrite post_file_unfold, Hopen; cbn -[str_repeat String.append];
    (destruct (decoded lib _) as [v | e]; [| reflexivity]);
    (destruct (arg_json args); [reflexivity |]);
    unfold renderable, has_field, has_number, lift, print, io_bind;
    split_getitem; eexists _, _; (split; [reflexivity | split; reflexivity]).
Qed.

Lemma health_block_unfold w lib mind args :
  let get_url := endpoint mind +:+ "/health" in
  match decoded lib (session_get w get_url 10) with
  | Raise e => health_block w lib mind args = ([Get get_url], Raise e)
  | Ok v =>
      if arg_json args
      then health_block w lib mind args
           = ([Get get_url; Print (json_dumps lib 2 v)], Ok tt)
      else exists ev r,
          health_block w lib mind args = (Get get_url :: ev, r)
          /\ network ev = []
          /\ is_ok r = renderable CmdHealth v
  end.
Proof.
  unfold health_block. rewrite health_check_unfold. cbn -[String.append].
  destruct (decoded lib _) as [v | e]; [| reflexivity].
  destruct (arg_json args); [reflexivity |].
  unfold renderable, has_field, lift, print, io_bind.
  split_getitem; eexists _, _; (split; [reflexivity | split; reflexivity]).
Qed.

Lemma run_main_upload (w : World) (lib : PyLib) (args : Namespace) :
  arg_command args <> CmdHealth ->
  run_main w lib args =
  let mind := MusicMind_init w (Some (arg_endpoint args)) in
  match arg_audio_file args with
  | None | Some "" =>
      {| exit_code := 1;
         events := [Print "❌ Error: audio_file required for this command"] |}
  | Some audio_file =>
      if negb (path_exists w audio_file) then
        {| exit_code := 1;
           events := [Print ("❌ Error: File not found: " +:+ audio_file)] |}
      else
        match task_block w lib mind args audio_file with
        | (ev, Ok _) => {| exit_code := 0; events := ev |}
        | (ev, Raise e) =>
            {| exit_code := 1;
               events := ev ++
                 [Print ((if is_RequestException (exc e)
                          then "❌ API Error: " else "❌ Error: ")
                         +:+ exc_msg e)] |}
        end
  end.
Proof.
  intros Hcmd. unfold run_main. now destruct (arg_command args).
Qed.

Lemma run_main_health (w : World) (lib : PyLib) (args : Namespace) :
  arg_command args = CmdHealth ->
  run_main w lib args =
  match health_block w lib (MusicMind_init w (Some (arg_endpoint args))) args with
  | (ev, Ok _) => {| exit_code := 0; events := ev |}
  | (ev, Raise e) =>
      {| exit_code := 1;
         events := ev ++ [Print ("❌ Health check failed: " +:+ exc_msg e)] |}
  end.
Proof.
  intros Hcmd. unfold run_main. now rewrite Hcmd.
Qed.


Lemma good_status_is_decoded (lib : PyLib) (resp : HttpResponse) (v : pyval) :
  status_code resp < 400 \/ 600 <= status_code resp ->
  json_loads lib (text resp) = Some v ->
  decoded lib (Ok resp) = Ok v.
Proof.
  intros Hstatus Hv. unfold decoded, raise_for_status, response_json. simpl.
  destruct (400 <=? status_code resp) eqn:H4;
    destruct (status_code resp <? 500) eqn:H5;
    destruct (500 <=? status_code resp) eqn:H6;
    destruct (status_code resp <? 600) eqn:H7; simpl; try lia;
    now rewrite Hv.
Qed.

(** ** The exit code on the machine as it is *)






Lemma exit_1_after_print_code sh ev line :
  exit_code (Terminal.exit_1_after_print sh ev line) = 1.
Proof. reflexivity. Qed.





(** On the machine [Client] is written for, the two transcriptions of
    [main] agree. *)
Lemma run_main_on_plain_shell (w : World) (lib : PyLib) (args : Namespace) :
  Terminal.run_main (Terminal.plain w) w lib args = run_main w lib args.
Proof.
  unfold Terminal.run_main, run_main.
  change (Terminal.health_block (Terminal.plain w) w lib)
    with (health_block w lib).
  change (Terminal.task_block (Terminal.plain w) w lib)
    with (task_block w lib).
  destruct (arg_command args).
  5: now destruct (health_block w lib _ args) as [ev [[] | e]].
  all: destruct (arg_audio_file args) as [[| c path] |]; try reflexivity;
    cbn [Terminal.path_status Terminal.plain];
    destruct (path_exists w (String c path)); try reflexivity;
    cbn [negb];
    now destruct (task_block w lib _ args _) as [ev [[] | e]].
Qed.


(** *** The command lines argparse rejects *)














(** C4, amended.  For every command other than [health], a file path that
    does not exist ends the run with status 1 and without any request being
    sent; [health] does not look at the file path: it runs as if none had
    been given. *)
Theorem missing_file_exits_1_before_network (w : World) (lib : PyLib)
    (args : Namespace) :
  (forall path : string,
      arg_command args <> CmdHealth ->
      arg_audio_file args = Some path ->
      path_exists w path = false ->
      exit_code (run_main w lib args) = 1
      /\ network (events (run_main w lib args)) = [])
  /\ (arg_command args = CmdHealth ->
      run_main w lib args
      = run_main w lib
          {| arg_command := CmdHealth; arg_audio_file := None;
             arg_prompt := arg_prompt args; arg_endpoint := arg_endpoint args;
             arg_json := arg_json args |}).
Proof.
  split.
  - intros path Hcmd Hfile Hexists. rewrite run_main_upload by assumption.
    cbn zeta. rewrite Hfile. destruct path as [| c path'].
    + now split.
    + rewrite Hexists. now split.
  - intros Hcmd. rewrite !run_main_health by assumption. simpl.
    unfold health_block. reflexivity.
Qed.

Lemma missing_file_exits_1_before_network_witness :
  exit_code (run_main (Desk.world (Ok Desk.lyrics_200)) RefLib.lib
               Desk.transcribe_missing) = 1
  /\ network (events (run_main (Desk.world (Ok Desk.lyrics_200)) RefLib.lib
                         Desk.transcribe_missing)) = [].
Proof.
  apply (missing_file_exits_1_before_network
           (Desk.world (Ok Desk.lyrics_200)) RefLib.lib
           Desk.transcribe_missing)
    with (path := "missing.mp3");
    [discriminate | reflexivity | reflexivity].
Defined.

(** Against C4 as stated: [health] given a path that does not exist sends
    its request all the same and exits with status 0. *)
Lemma health_ignores_missing_file :
  path_exists (Desk.world (Ok Desk.lyrics_200)) "missing.mp3" = false
  /\ main (Desk.world (Ok Desk.lyrics_200)) RefLib.lib
        ["health"; "missing.mp3"]
     = Some {| exit_code := 0;
               events := [Get (DEFAULT_URL +:+ "/health");
                          Print "✅ audio-flamingo-3 is healthy"] |}.
Proof.
  split; [reflexivity | vm_compute; reflexivity].
Qed.




(** For a successful response the printed text is a new serialisation of
    the decoded body, laid out on several lines; it is not the body byte
    for byte. *)
Example json_flag_output_is_a_new_serialisation :
  stdout (events (run_main (Desk.world (Ok Desk.analysis_200)) RefLib.lib
                    Desk.analyze_json))
  <> [text Desk.analysis_200].
Proof.
  vm_compute. intros H. discriminate H.
Qed.

Lemma drop_prefix_app (p s : string) : drop_prefix p (p +:+ s) = Some s.
Proof.
  induction p as [| a p IH]; simpl; [reflexivity |].
  now rewrite Ascii.eqb_refl.
Qed.

(** C10.  The facade's [analyze] puts the [prompt] form field in the
    request only for a non-empty prompt: with an empty string it does
    exactly what it does with no prompt, the request it sends reaches the
    [/analyze] route without a prompt, and the route then runs the
    inference with the built-in default prompt. *)
Theorem empty_prompt_sends_no_field (w : World) (lib : PyLib)
    (self : MusicMind) (audio_path : string) :
  (forall p : string, p <> "" -> prompt_data (Some p) = [("prompt", p)])
  /\ prompt_data (Some "") = [] /\ prompt_data None = []
  /\ analyze w lib self audio_path (Some "") = analyze w lib self audio_path None
  /\ (forall f : bytes,
        open_rb w audio_path = Ok f ->
        exists (req : PostRequest) (r : result pyval),
          analyze w lib self audio_path (Some "") = ([Post req], r)
          /\ as_received (endpoint self) req
             = Some {| Server.route := "/analyze"; Server.upload := f;
                       Server.form := [] |}
          /\ Server.fastapi_app
               {| Server.route := "/analyze"; Server.upload := f;
                  Server.form := [] |}
             = Some (Server.Analyze None))
  /\ (forall (svc : Server.Services) (file : bytes) (fs : gmap string bytes),
        Server.serve svc (Server.Analyze None) file fs
        = Server.serve svc (Server.Analyze (Some Server.DEFAULT_PROMPT)) file fs).
Proof.
  split; [| split; [| split; [| split; [| split]]]]; try reflexivity.
  - intros [| c p] Hp; [congruence | reflexivity].
  - intros f Hopen. unfold analyze. rewrite post_file_unfold, Hopen.
    cbn zeta. eexists _, _. split; [reflexivity |]. split; [| reflexivity].
    unfold as_received. simpl. now rewrite drop_prefix_app.
Qed.

Lemma empty_prompt_sends_no_field_witness :
  prompt_data (Some "what key?") = [("prompt", "what key?")]
  /\ (exists (req : PostRequest) (r : result pyval),
        analyze (Desk.world (Ok Desk.analysis_200)) RefLib.lib
          {| endpoint := DEFAULT_URL |} "song.mp3" (Some "") = ([Post req], r)
        /\ as_received DEFAULT_URL req
           = Some {| Server.route := "/analyze"; Server.upload := Desk.song;
                     Server.form := [] |}
        /\ Server.fastapi_app
             {| Server.route := "/analyze"; Server.upload := Desk.song;
                Server.form := [] |}
           = Some (Server.Analyze None)).
Proof.
  split.
  - apply (empty_prompt_sends_no_field (Desk.world (Ok Desk.analysis_200))
             RefLib.lib {| endpoint := DEFAULT_URL |} "song.mp3").
    discriminate.
  - apply (empty_prompt_sends_no_field (Desk.world (Ok Desk.analysis_200))
             RefLib.lib {| endpoint := DEFAULT_URL |} "song.mp3").
    reflexivity.
Defined.

End ClientProps.

(** * More properties: the model cache *)

Module VolumeProps.

Import Volume.

Lemma node_induction (P : node -> Prop) :
  (forall size, P (File size)) -> P Dangling ->
  (forall target, Forall (fun e => P (snd e)) target -> P (DirLink target)) ->
  (forall entries, Forall (fun e => P (snd e)) entries -> P (Dir entries)) ->
  forall n, P n.
Proof.
  intros HF HD HL HDir.
  fix IH 1. intros [size | | target | entries]; [apply HF | exact HD | |].
  - apply HL. revert target.
    fix IHes 1. intros [| [name child] es]; constructor.
    + apply IH.
    + apply IHes.
  - apply HDir. revert entries.
    fix IHes 1. intros [| [name child] es]; constructor.
    + apply IH.
    + apply IHes.
Qed.

Lemma add_walk_app (l1 l2 : list triple) (total : N) :
  add_walk (l1 ++ l2) total
  = bind (add_walk l1 total) (fun t => add_walk l2 t).
Proof.
  revert total. induction l1 as [| [[dirpath names] files] l1 IH]; intros total;
    simpl; [reflexivity |].
  destruct (add_files dirpath files total) as [t | e]; simpl; auto.
Qed.

(** The inner loop adds the regular files and steps over dangling links. *)
Lemma add_files_total (dirpath : string) (es : list (string * node))
    (total : N) :
  add_files dirpath (filenames es) total = Ok (total + own_bytes es)%N.
Proof.
  revert total. unfold own_bytes.
  induction es as [| [name child] es IH]; intros total; simpl.
  - f_equal. lia.
  - unfold filenames in *. simpl.
    destruct child as [size | | target | entries]; simpl; rewrite IH; f_equal; lia.
Qed.

Lemma tree_size_split (entries : list (string * node)) :
  tree_size (Dir entries) = (own_bytes entries + nested_bytes entries)%N.
Proof.
  cbn [tree_size]. unfold own_bytes, nested_bytes.
  induction entries as [| [name child] es IH]; [reflexivity |].
  cbn [fold_right snd]. rewrite IH.
  destruct child; cbn [is_dir tree_size]; lia.
Qed.

(** A link to a directory, given as the top of the walk, is walked like
    the directory. *)
Lemma os_walk_top_link (top : string) (entries : list (string * node)) :
  os_walk top (DirLink entries) = os_walk top (Dir entries).
Proof. reflexivity. Qed.

Lemma add_walk_tree (n : node) :
  forall (top : string) (total : N),
    add_walk (os_walk top n) total
    = Ok (total + match n with
                  | Dir entries | DirLink entries => tree_size (Dir entries)
                  | _ => 0
                  end)%N.
Proof.
  induction n as [size | | entries IH | entries IH] using node_induction;
    intros top total; try (simpl; f_equal; lia);
    try rewrite os_walk_top_link.
  all: cbn [os_walk add_walk]; rewrite add_files_total; cbn [bind].
  all: assert (Hbelow : forall t,
    add_walk
      ((fix below (es : list (string * node)) : list triple :=
          match es with
          | [] => []
          | (name, child) :: es' =>
              match child with
              | Dir _ => (os_walk (os_path_join top name) child ++ below es')%list
              | _ => below es'
              end
          end) entries) t
    = Ok (t + nested_bytes entries)%N);
    [ unfold nested_bytes;
      induction IH as [| [name child] es Hchild _ IHes]; intros t;
      [ simpl; f_equal; lia
      | destruct child as [size | | target | sub];
          cbn -[os_walk add_walk tree_size];
          try (rewrite IHes; f_equal; lia);
          rewrite add_walk_app, Hchild; cbn [bind]; rewrite IHes; f_equal;
          cbn [snd]; lia ]
    | rewrite Hbelow, tree_size_split; f_equal; lia ].
Qed.

(** X1. [_get_dir_size] never raises.  On a directory, and on a link to a
    directory, it returns the total size of the regular files found below
    it, dangling links and what lies behind the directory links met on
    the way left out; on a path that names a file, a link without a
    target or nothing it returns 0. *)
Theorem get_dir_size_counts_regular_files (path : string) :
  (forall entries : list (string * node),
      _get_dir_size path (Some (Dir entries)) = Ok (tree_size (Dir entries)))
  /\ (forall entries : list (string * node),
        _get_dir_size path (Some (DirLink entries))
        = Ok (tree_size (Dir entries)))
  /\ (forall (name : string) (target entries : list (string * node)),
        _get_dir_size path (Some (Dir ((name, DirLink target) :: entries)))
        = _get_dir_size path (Some (Dir entries)))
  /\ (forall size : N, _get_dir_size path (Some (File size)) = Ok 0%N)
  /\ _get_dir_size path (Some Dangling) = Ok 0%N
  /\ _get_dir_size path None = Ok 0%N.
Proof.
  repeat split; try reflexivity.
  - intros entries. unfold _get_dir_size. now rewrite add_walk_tree.
  - intros entries. unfold _get_dir_size. now rewrite add_walk_tree.
Qed.

Example get_dir_size_of_the_cache :
  _get_dir_size "/cache" (Some cache) = Ok 16000001241%N
  /\ _get_dir_size "/cache" (Some (DirLink cache_entries)) = Ok 16000001241%N.
Proof. split; vm_compute; reflexivity. Qed.

End VolumeProps.

(** * More properties: the server *)

Module ServerMore.

Import Server.
Import ServerProps.

Lemma analyze_music_raises (svc : Services) (fs : filesystem)
    (audio_path : string) (prompt : option string) (e : exn) :
  analyze_music svc fs audio_path prompt = Raise e
  <-> infer svc (match prompt with None => DEFAULT_PROMPT | Some p => p end)
        audio_path analyze_config fs = Raise e.
Proof.
  unfold analyze_music.
  destruct (infer svc _ _ _ _) as [text | e']; simpl.
  - destruct (audio_features svc fs audio_path) as [[tempo duration] | e''];
      split; discriminate.
  - split; intros [= ->]; reflexivity.
Qed.

(** X2. Each of the four inference methods raises exactly when its model
    call raises, and raises that same exception: nothing else in them can
    fail, a failure of the feature extraction least of all. *)
Theorem methods_raise_what_the_model_raises (svc : Services) (fs : filesystem)
    (audio_path : string) (e : exn) :
  (forall prompt : option string,
      analyze_music svc fs audio_path prompt = Raise e
      <-> infer svc (match prompt with None => DEFAULT_PROMPT | Some p => p end)
            audio_path analyze_config fs = Raise e)
  /\ (party_vibe_check svc fs audio_path = Raise e
      <-> infer svc PARTY_PROMPT audio_path analyze_config fs = Raise e)
  /\ (generate_caption svc fs audio_path = Raise e
      <-> infer svc CAPTION_PROMPT audio_path analyze_config fs = Raise e)
  /\ (transcribe_lyrics svc fs audio_path = Raise e
      <-> infer svc TRANSCRIBE_PROMPT audio_path transcribe_config fs = Raise e).
Proof.
  split; [| split; [| split]].
  - intros prompt. apply analyze_music_raises.
  - rewrite <- (analyze_music_raises svc fs audio_path (Some PARTY_PROMPT) e).
    unfold party_vibe_check.
    destruct (analyze_music svc fs audio_path (Some PARTY_PROMPT)); simpl;
      split; try discriminate; intros [= ->]; reflexivity.
  - apply (analyze_music_raises svc fs audio_path (Some CAPTION_PROMPT) e).
  - unfold transcribe_lyrics.
    destruct (infer svc _ _ _ _); simpl;
      split; try discriminate; intros [= ->]; reflexivity.
Qed.

Lemma methods_raise_what_the_model_raises_witness :
  analyze_music Sample.svc (<["/in/empty.wav" := []]> Sample.disk)
    "/in/empty.wav" None = Raise (Exn RuntimeError "empty audio")
  /\ transcribe_lyrics Sample.svc (<["/in/empty.wav" := []]> Sample.disk)
       "/in/empty.wav" = Raise (Exn RuntimeError "empty audio").
Proof.
  split.
  - apply (methods_raise_what_the_model_raises Sample.svc
             (<["/in/empty.wav" := []]> Sample.disk) "/in/empty.wav"
             (Exn RuntimeError "empty audio")).
    vm_compute. reflexivity.
  - apply (methods_raise_what_the_model_raises Sample.svc
             (<["/in/empty.wav" := []]> Sample.disk) "/in/empty.wav"
             (Exn RuntimeError "empty audio")).
    vm_compute. reflexivity.
Defined.

Lemma Qred_whole (k : Z) (sr : positive) :
  Qred (k * Z.pos sr # sr) = inject_Z k.
Proof.
  assert (H : (k * Z.pos sr # sr == inject_Z k)%Q).
  { unfold Qeq, inject_Z. simpl. lia. }
  apply Qred_complete in H. rewrite H.
  unfold inject_Z, Qred.
  pose proof (Z.ggcd_correct_divisors k 1) as Hd.
  pose proof (Z.ggcd_gcd k 1) as Hgcd.
  destruct (Z.ggcd k 1) as [g [a b]]. cbn [fst snd] in *.
  rewrite Z.gcd_1_r in Hgcd. subst g. destruct Hd as [Ha Hb].
  assert (a = k) by lia. assert (b = 1) by lia. subst a b. reflexivity.
Qed.

(** X3. When the feature extraction succeeds and the samples kept (the
    first 30 seconds at most) make a whole number [k] of seconds,
    [duration_seconds] is the float [k]: the quotient [len(y) / sr] is
    then exact.  So a track of 30 seconds or more reports exactly 30, and
    a track without samples reports 0.0. *)
Theorem whole_second_durations_are_exact (svc : Services) (fs : filesystem)
    (audio_path : string) (prompt : option string) (result : pydict)
    (content : bytes) (a : Audio) (tempo duration : Q) :
  fs !! audio_path = Some content ->
  decode svc content = Ok a ->
  audio_features svc fs audio_path = Ok (tempo, duration) ->
  analyze_music svc fs audio_path prompt = Ok result ->
  dict_get result "duration_seconds" = Some (PyFloat duration)
  /\ (forall k : Z,
        0 <= k <= 30 ->
        Z.of_nat (length (frames a)) = k * Z.pos (native_sr a) ->
        duration = inject_Z k)
  /\ (30 * Z.pos (native_sr a) <= Z.of_nat (length (frames a)) ->
      duration = 30%Q)
  /\ (frames a = [] -> duration = 0%Q).
Proof.
  intros Hfile Hdecode Hfeat Hresult.
  destruct (analyze_music_inv _ _ _ _ _ Hresult) as [text ->].
  rewrite Hfeat. split; [reflexivity |].
  destruct (audio_features_duration _ _ _ _ _ Hfeat) as (y & sr & Hload & ->).
  destruct (librosa_load_inv _ _ _ _ _ _ Hload)
    as (content' & a' & Hfile' & Hdecode' & -> & ->).
  rewrite Hfile in Hfile'. injection Hfile' as <-.
  rewrite Hdecode in Hdecode'. injection Hdecode' as <-.
  rewrite length_firstn. split; [| split].
  - intros k Hk Hlen. rewrite Nat.min_r by nia. rewrite Hlen.
    apply Qred_whole.
  - intros Hlen. rewrite Nat.min_l by lia. rewrite Z2Nat.id by lia.
    apply (Qred_whole 30).
  - intros ->. cbn [length]. rewrite Nat.min_r by lia.
    apply (Qred_whole 0).
Qed.

Lemma whole_second_durations_are_exact_witness :
  dict_get [("analysis", PyStr "House, energy 8/10.");
            ("tempo_bpm", PyFloat 120%Q);
            ("duration_seconds", PyFloat 30%Q)] "duration_seconds"
    = Some (PyFloat 30%Q)
  /\ (30 * 4 <= Z.of_nat (length (repeat 0%Q 200)) -> 30%Q = 30%Q).
Proof.
  split;
    apply (whole_second_durations_are_exact Sample.svc Sample.studio
             "/in/song.wav" None
             [("analysis", PyStr "House, energy 8/10.");
              ("tempo_bpm", PyFloat 120%Q);
              ("duration_seconds", PyFloat 30%Q)]
             Sample.song {| native_sr := 4; frames := repeat 0%Q 200 |}
             120%Q 30%Q);
    vm_compute; reflexivity.
Defined.

(** X4. In a result of [analyze_music], [tempo_bpm] is either the integer
    0 or a float that is not zero and is the estimate of the beat
    tracker: a zero estimate and a failed extraction give the same 0. *)
Theorem tempo_is_zero_int_or_nonzero_float (svc : Services) (fs : filesystem)
    (audio_path : string) (prompt : option string) (result : pydict) :
  analyze_music svc fs audio_path prompt = Ok result ->
  dict_get result "tempo_bpm" = Some (PyInt 0)
  \/ exists (tempo : Q) (y : list Q) (sr : positive),
       dict_get result "tempo_bpm" = Some (PyFloat tempo)
       /\ ~ (tempo == 0)%Q
       /\ beat_track svc y sr = Ok tempo.
Proof.
  intros Hresult.
  destruct (analyze_music_inv _ _ _ _ _ Hresult) as [text ->]. simpl.
  destruct (audio_features svc fs audio_path) as [[tempo duration] | e]
    eqn:Hfeat; [| now left].
  destruct (audio_features_tempo _ _ _ _ _ Hfeat) as (y & sr & Hbeat).
  simpl. destruct (Qeq_bool tempo 0) eqn:Hzero; [now left |].
  right. exists tempo, y, sr. repeat split; auto.
  intros H. apply Qeq_bool_iff in H. congruence.
Qed.

Lemma tempo_is_zero_int_or_nonzero_float_witness :
  dict_get [("analysis", PyStr "House, energy 8/10.");
            ("tempo_bpm", PyFloat 120%Q);
            ("duration_seconds", PyFloat 30%Q)] "tempo_bpm" = Some (PyInt 0)
  \/ exists (tempo : Q) (y : list Q) (sr : positive),
       dict_get [("analysis", PyStr "House, energy 8/10.");
                 ("tempo_bpm", PyFloat 120%Q);
                 ("duration_seconds", PyFloat 30%Q)] "tempo_bpm"
       = Some (PyFloat tempo)
       /\ ~ (tempo == 0)%Q
       /\ beat_track Sample.svc y sr = Ok tempo.
Proof.
  apply (tempo_is_zero_int_or_nonzero_float Sample.svc Sample.studio
           "/in/song.wav" None).
  vm_compute. reflexivity.
Defined.

Lemma fits_float_0 : Client.fits_float 0 = true.
Proof. vm_compute. reflexivity. Qed.

Lemma formats_1f_is_number (v : pyval) :
  Client.formats_1f v = true -> Client.is_number v = true.
Proof. now destruct v. Qed.

(** What every successful inference result looks like: its numbers are
    floats, or the integer 0. *)
Lemma handler_result_fields (svc : Services) (ep : endpoint) (fs : filesystem)
    (tmp_path : string) (result : pydict) :
  handler svc ep fs tmp_path = Ok result ->
  match ep with
  | Analyze _ | Caption =>
      exists (text : string) (tempo duration : pyval),
        result = [("analysis", PyStr text); ("tempo_bpm", tempo);
                  ("duration_seconds", duration)]
        /\ Client.formats_1f tempo = true /\ Client.formats_1f duration = true
  | PartyVibe =>
      exists (text : string) (tempo duration : pyval),
        result = [("analysis", PyStr text); ("tempo_bpm", tempo);
                  ("duration_seconds", duration); ("vibe_check", PyBool true)]
        /\ Client.formats_1f tempo = true /\ Client.formats_1f duration = true
  | Transcribe => exists text : string, result = [("lyrics", PyStr text)]
  end.
Proof.
  assert (Hshape : forall prompt r,
             analyze_music svc fs tmp_path prompt = Ok r ->
             exists (text : string) (tempo duration : pyval),
               r = [("analysis", PyStr text); ("tempo_bpm", tempo);
                    ("duration_seconds", duration)]
               /\ Client.formats_1f tempo = true
               /\ Client.formats_1f duration = true).
  { intros prompt r Hr. destruct (analyze_music_inv _ _ _ _ _ Hr) as [text ->].
    eexists _, _, _. split; [reflexivity |].
    destruct (audio_features svc fs tmp_path) as [[tempo duration] | e];
      cbn [tempo_field Z.eqb]; [| split; exact fits_float_0].
    destruct (Qeq_bool tempo 0); split; try reflexivity; exact fits_float_0. }
  destruct ep as [prompt | | |]; simpl.
  - apply Hshape.
  - unfold party_vibe_check.
    destruct (analyze_music svc fs tmp_path (Some PARTY_PROMPT)) as [r | e]
      eqn:Hr; simpl; [| discriminate].
    intros [= <-]. destruct (Hshape _ _ Hr) as (text & t & d & -> & Ht & Hd).
    now exists text, t, d.
  - unfold transcribe_lyrics.
    destruct (infer svc _ _ _ _) as [text | e]; simpl; [| discriminate].
    intros [= <-]. now exists text.
  - apply Hshape.
Qed.

Lemma handler_result_shape (svc : Services) (ep : endpoint) (fs : filesystem)
    (tmp_path : string) (result : pydict) :
  handler svc ep fs tmp_path = Ok result ->
  match ep with
  | Analyze _ | Caption =>
      exists (text : string) (tempo duration : pyval),
        result = [("analysis", PyStr text); ("tempo_bpm", tempo);
                  ("duration_seconds", duration)]
        /\ Client.is_number tempo = true /\ Client.is_number duration = true
  | PartyVibe =>
      exists (text : string) (tempo duration : pyval),
        result = [("analysis", PyStr text); ("tempo_bpm", tempo);
                  ("duration_seconds", duration); ("vibe_check", PyBool true)]
        /\ Client.is_number tempo = true /\ Client.is_number duration = true
  | Transcribe => exists text : string, result = [("lyrics", PyStr text)]
  end.
Proof.
  intros Hresult. apply handler_result_fields in Hresult.
  destruct ep; try exact Hresult;
    destruct Hresult as (text & t & d & -> & Ht & Hd);
    exists text, t, d; auto using formats_1f_is_number.
Qed.

(** X5. A successful answer of the general analysis route or of the
    caption route is an object with exactly the fields [analysis] (a
    string), [tempo_bpm] and [duration_seconds] (numbers), in this order;
    it has no [vibe_check] and no [error]. *)
Theorem analysis_routes_return_three_fields (svc : Services)
    (ep : endpoint) (file : bytes) (fs : filesystem) (r : Response) :
  ep <> PartyVibe -> ep <> Transcribe ->
  response (serve svc ep file fs) = Ok r ->
  status_code r = 200 ->
  exists (text : string) (tempo duration : pyval),
    content r = [("analysis", PyStr text); ("tempo_bpm", tempo);
                 ("duration_seconds", duration)]
    /\ Client.is_number tempo = true /\ Client.is_number duration = true
    /\ dict_get (content r) "vibe_check" = None
    /\ dict_get (content r) "error" = None.
Proof.
  intros Hparty Htranscribe. rewrite serve_upload_route, upload_route_unfold.
  simpl. destruct (handler svc ep _ _) as [result | e] eqn:Hresult;
    intros [= <-]; simpl; [intros _ | discriminate].
  apply handler_result_shape in Hresult.
  destruct ep; try congruence;
    destruct Hresult as (text & t & d & -> & Ht & Hd);
    exists text, t, d; repeat split; auto.
Qed.

Lemma analysis_routes_return_three_fields_witness :
  exists (text : string) (tempo duration : pyval),
    [("analysis", PyStr "House, energy 8/10."); ("tempo_bpm", PyFloat 120%Q);
     ("duration_seconds", PyFloat 30%Q)]
    = [("analysis", PyStr text); ("tempo_bpm", tempo);
       ("duration_seconds", duration)]
    /\ Client.is_number tempo = true /\ Client.is_number duration = true
    /\ dict_get [("analysis", PyStr "House, energy 8/10.");
                 ("tempo_bpm", PyFloat 120%Q);
                 ("duration_seconds", PyFloat 30%Q)] "vibe_check" = None
    /\ dict_get [("analysis", PyStr "House, energy 8/10.");
                 ("tempo_bpm", PyFloat 120%Q);
                 ("duration_seconds", PyFloat 30%Q)] "error" = None.
Proof.
  apply (analysis_routes_return_three_fields Sample.svc Caption Sample.song
           Sample.disk
           (JSONResponse [("analysis", PyStr "House, energy 8/10.");
                          ("tempo_bpm", PyFloat 120%Q);
                          ("duration_seconds", PyFloat 30%Q)] 200));
    try discriminate; vm_compute; reflexivity.
Defined.

(** X6. A task route answers every upload it can store, with status 200
    or 500 and nothing else: 200 carries the result of the inference call,
    which has no [error] field; 500 carries an object whose only field is
    [error] and is sent exactly when the inference call raised.  An upload
    that does not fit in the temporary directory gets no answer from the
    route: the route raises while storing it, before any inference
    call. *)
Theorem stored_upload_is_answered_200_or_500 (svc : Services) (free : nat)
    (ep : endpoint) (file : bytes) (fs : filesystem) :
  ((length file <= free)%nat ->
   exists r : Response,
     response (Storage.serve svc free ep file fs) = Ok r
     /\ (status_code r = 200
         /\ handler svc ep (<[mkstemp_name svc fs := file]> fs)
              (mkstemp_name svc fs) = Ok (content r)
         /\ dict_get (content r) "error" = None
         \/ status_code r = 500
            /\ dict_keys (content r) = ["error"]
            /\ is_ok (handler svc ep (<[mkstemp_name svc fs := file]> fs)
                        (mkstemp_name svc fs)) = false))
  /\ ((free < length file)%nat ->
      response (Storage.serve svc free ep file fs)
      = Raise (Exn OSError "[Errno 28] No space left on device")).
Proof.
  split.
  - intros Hroom. rewrite serve_with_room by assumption.
    rewrite serve_upload_route, upload_route_unfold. simpl.
    destruct (handler svc ep _ _) as [result | e] eqn:Hresult;
      eexists; (split; [reflexivity |]).
    + left. simpl. repeat split.
      apply handler_result_shape in Hresult.
      destruct ep.
      1,2,4: destruct Hresult as (text & t & d & -> & _); reflexivity.
      destruct Hresult as (text & ->); reflexivity.
    + right. now simpl.
  - intros Hfull. now rewrite serve_without_room by assumption.
Qed.

Lemma stored_upload_is_answered_200_or_500_witness :
  (exists r : Response,
     response (Storage.serve Sample.svc 4 Transcribe Sample.song Sample.disk)
       = Ok r
     /\ (status_code r = 200
         /\ handler Sample.svc Transcribe
              (<[mkstemp_name Sample.svc Sample.disk := Sample.song]> Sample.disk)
              (mkstemp_name Sample.svc Sample.disk) = Ok (content r)
         /\ dict_get (content r) "error" = None
         \/ status_code r = 500
            /\ dict_keys (content r) = ["error"]
            /\ is_ok (handler Sample.svc Transcribe
                        (<[mkstemp_name Sample.svc Sample.disk := Sample.song]>
                           Sample.disk)
                        (mkstemp_name Sample.svc Sample.disk)) = false))
  /\ response (Storage.serve Sample.svc 3 Transcribe Sample.song Sample.disk)
     = Raise (Exn OSError "[Errno 28] No space left on device").
Proof.
  split;
    apply (stored_upload_is_answered_200_or_500 Sample.svc _ Transcribe
             Sample.song Sample.disk);
    simpl; lia.
Defined.

End ServerMore.

(** * More properties: the entry point, the demo and the client *)

Module ClientMore.

Import Client.
Import ClientProps.

(** ** The local entry point of the deployment *)


(** X7. The entry point of the deployment does no inference in two cases:
    with fewer than two elements in [sys.argv] it prints its two usage
    lines and exits with status 1; with a command that is none of the four
    it knows it prints nothing and exits with status 0. *)
Theorem entrypoint_does_nothing_without_work (svc : Server.Services)
    (lib : PyLib) (fs : gmap string bytes) :
  (forall argv : list string,
      (length argv < 2)%nat ->
      Entrypoint.main svc lib fs argv
      = {| exit_code := 1;
           events :=
             [Print "Usage: modal run modal_app.py -- <audio_file> [command]";
              Print "Commands: analyze, party-vibe, transcribe, caption"] |})
  /\ (forall (prog audio_file command : string) (rest : list string),
        Entrypoint.known command = false ->
        Entrypoint.main svc lib fs (prog :: audio_file :: command :: rest)
        = {| exit_code := 0; events := [] |}).
Proof.
  split.
  - intros [| a [| b argv]] Hlen; simpl in *; try reflexivity; lia.
  - intros prog audio_file command rest Hknown.
    unfold Entrypoint.known in Hknown. rewrite !orb_false_iff in Hknown.
    destruct Hknown as [[[H1 H2] H3] H4].
    unfold Entrypoint.main, Entrypoint.dispatch. now rewrite H1, H2, H3, H4.
Qed.

Lemma entrypoint_does_nothing_without_work_witness :
  Entrypoint.main Sample.svc RefLib.lib Sample.studio ["modal_app.py"]
  = {| exit_code := 1;
       events :=
         [Print "Usage: modal run modal_app.py -- <audio_file> [command]";
          Print "Commands: analyze, party-vibe, transcribe, caption"] |}
  /\ Entrypoint.main Sample.svc RefLib.lib Sample.studio
       ["modal_app.py"; "/in/song.wav"; "lyrics"]
     = {| exit_code := 0; events := [] |}.
Proof.
  split.
  - apply (entrypoint_does_nothing_without_work Sample.svc RefLib.lib
             Sample.studio). simpl. lia.
  - apply (entrypoint_does_nothing_without_work Sample.svc RefLib.lib
             Sample.studio). reflexivity.
Defined.



(** ** The demo *)

Lemma network_app (ev1 ev2 : list event) :
  network (ev1 ++ ev2) = (network ev1 ++ network ev2)%list.
Proof. unfold network. apply filter_app. Qed.

Lemma network_prints (ev : list event) (line : string) :
  network (ev ++ [Print line]) = network ev.
Proof. rewrite network_app. simpl. apply app_nil_r. Qed.

Lemma network_request (e : event) (ev : list event) :
  is_network e = true -> network (e :: ev) = e :: network ev.
Proof.
  intros H. unfold network. apply filter_cons_True. now rewrite H.
Qed.

Lemma stdout_app (ev1 ev2 : list event) :
  stdout (ev1 ++ ev2) = (stdout ev1 ++ stdout ev2)%list.
Proof.
  induction ev1 as [| [line | req | u] ev1 IH]; simpl; now rewrite ?IH.
Qed.



(** ** The facade *)

Lemma decoded_ok_inv (lib : PyLib) (resp : HttpResponse) (v : pyval) :
  decoded lib (Ok resp) = Ok v ->
  (status_code resp < 400 \/ 600 <= status_code resp)
  /\ json_loads lib (text resp) = Some v.
Proof.
  unfold decoded, raise_for_status, response_json. simpl.
  destruct (400 <=? status_code resp) eqn:H4;
    destruct (status_code resp <? 500) eqn:H5;
    destruct (500 <=? status_code resp) eqn:H6;
    destruct (status_code resp <? 600) eqn:H7; simpl; try discriminate;
    destruct (json_loads lib (text resp)) as [v' |]; try discriminate;
    intros [= <-]; split; auto; lia.
Qed.

Lemma post_file_returns (w : World) (lib : PyLib) (self : MusicMind)
    (route audio_path : string) (data : list (string * string)) (v : pyval) :
  snd (post_file w lib self route audio_path data) = Ok v
  <-> Contract.answered w lib self route audio_path data v.
Proof.
  unfold Contract.answered. rewrite post_file_unfold. split.
  - destruct (open_rb w audio_path) as [f | e]; [| discriminate].
    cbn zeta. cbn [snd].
    destruct (session_post w _) as [resp | e] eqn:Hpost; [| discriminate].
    intros Hdec. apply decoded_ok_inv in Hdec. destruct Hdec as [Hs Hv].
    now exists f, resp.
  - intros (f & resp & -> & Hpost & Hs & Hv). cbn zeta. cbn [snd].
    rewrite Hpost. now apply good_status_is_decoded.
Qed.

(** X10. A method of the facade returns a document exactly when its one
    exchange went well, and then returns the decoded body: for the four
    upload methods the file opened, the POST to the method's route got a
    response, the status is outside 400..599 and the body is JSON; for
    [health_check] the same of its GET.  In every other case it raises. *)
Theorem facade_returns_only_good_json_answers (w : World) (lib : PyLib)
    (self : MusicMind) (audio_path : string) (v : pyval) :
  (forall prompt : option string,
      snd (analyze w lib self audio_path prompt) = Ok v
      <-> Contract.answered w lib self "/analyze" audio_path
            (prompt_data prompt) v)
  /\ (snd (party_vibe w lib self audio_path) = Ok v
      <-> Contract.answered w lib self "/party-vibe" audio_path [] v)
  /\ (snd (transcribe w lib self audio_path) = Ok v
      <-> Contract.answered w lib self "/transcribe" audio_path [] v)
  /\ (snd (caption w lib self audio_path) = Ok v
      <-> Contract.answered w lib self "/caption" audio_path [] v)
  /\ (snd (health_check w lib self) = Ok v <-> Contract.probed w lib self v).
Proof.
  split; [intros prompt | split; [| split; [| split]]];
    try apply post_file_returns.
  unfold Contract.probed. rewrite health_check_unfold. cbn [snd]. split.
  - destruct (session_get w _ 10) as [resp | e] eqn:Hget; [| discriminate].
    intros Hdec. apply decoded_ok_inv in Hdec. destruct Hdec as [Hs Hv].
    now exists resp.
  - intros (resp & -> & Hs & Hv). now apply good_status_is_decoded.
Qed.

Lemma facade_returns_only_good_json_answers_witness :
  snd (transcribe (Desk.world (Ok Desk.lyrics_200)) RefLib.lib
         {| endpoint := DEFAULT_URL |} "song.mp3")
  = Ok (PyDict [("lyrics", PyStr "la la la")]).
Proof.
  apply (facade_returns_only_good_json_answers
           (Desk.world (Ok Desk.lyrics_200)) RefLib.lib
           {| endpoint := DEFAULT_URL |} "song.mp3"
           (PyDict [("lyrics", PyStr "la la la")])).
  exists Desk.song, Desk.lyrics_200.
  repeat split; try reflexivity. left. simpl. lia.
Defined.

(** X11. A non-empty prompt given to the facade's [analyze] travels
    unchanged: it is the [prompt] field of the one request sent, the
    [/analyze] route passes it on, and the text the model returns for that
    very prompt is the [analysis] of the result. *)
Theorem custom_prompt_reaches_the_model (w : World) (lib : PyLib)
    (self : MusicMind) (audio_path p : string) (f : bytes) :
  p <> "" ->
  open_rb w audio_path = Ok f ->
  (exists (req : PostRequest) (r : result pyval),
      analyze w lib self audio_path (Some p) = ([Post req], r)
      /\ as_received (endpoint self) req
         = Some {| Server.route := "/analyze"; Server.upload := f;
                   Server.form := [("prompt", p)] |})
  /\ Server.fastapi_app {| Server.route := "/analyze"; Server.upload := f;
                           Server.form := [("prompt", p)] |}
     = Some (Server.Analyze (Some p))
  /\ (forall (svc : Server.Services) (fs : gmap string bytes)
             (tmp_path text : string),
        Server.infer svc p tmp_path Server.analyze_config fs = Ok text ->
        exists tempo duration : pyval,
          Server.handler svc (Server.Analyze (Some p)) fs tmp_path
          = Ok [("analysis", PyStr text); ("tempo_bpm", tempo);
                ("duration_seconds", duration)]).
Proof.
  intros Hp Hopen. split; [| split].
  - unfold analyze. rewrite post_file_unfold, Hopen. cbn zeta.
    eexists _, _. split; [reflexivity |].
    unfold as_received. cbn [post_url post_files post_data].
    rewrite drop_prefix_app. destruct p; [congruence | reflexivity].
  - reflexivity.
  - intros svc fs tmp_path text Htext. simpl. unfold Server.analyze_music.
    rewrite Htext. simpl.
    destruct (Server.audio_features svc fs tmp_path) as [[t d] | e]; eauto.
Qed.

Lemma custom_prompt_reaches_the_model_witness :
  Server.fastapi_app {| Server.route := "/analyze"; Server.upload := Desk.song;
                        Server.form := [("prompt", "what key?")] |}
  = Some (Server.Analyze (Some "what key?")).
Proof.
  apply (custom_prompt_reaches_the_model (Desk.world (Ok Desk.analysis_200))
           RefLib.lib {| endpoint := DEFAULT_URL |} "song.mp3" "what key?"
           Desk.song); [discriminate | reflexivity].
Defined.

(** ** The command line *)

(** X12. A run of the command line sends one request at most, and none
    before its checks pass: [health] sends its GET; an upload command
    sends the POST of its route once the file argument is given, names an
    existing entry and has been opened, and sends nothing otherwise. *)
Theorem run_sends_at_most_one_request (w : World) (lib : PyLib)
    (args : Namespace) :
  let mind := MusicMind_init w (Some (arg_endpoint args)) in
  network (events (run_main w lib args))
  = match arg_command args, arg_audio_file args with
    | CmdHealth, _ => [Get (endpoint mind +:+ "/health")]
    | _, None => []
    | _, Some path =>
        if String.eqb path "" || negb (path_exists w path) then []
        else match open_rb w path with
             | Ok f => [Post (upload_request mind args f)]
             | Raise _ => []
             end
    end.
Proof.
  cbn zeta.
  assert (arg_command args = CmdHealth \/ arg_command args <> CmdHealth)
    as [Hcmd | Hcmd] by (destruct (arg_command args); auto; right; discriminate).
  - rewrite run_main_health by assumption. rewrite Hcmd.
    pose proof (health_block_unfold w lib
                  (MusicMind_init w (Some (arg_endpoint args))) args) as H.
    cbn zeta in H.
    destruct (decoded lib _) as [v | e].
    + destruct (arg_json args).
      * now rewrite H.
      * destruct H as (ev & r & -> & Hnet & _).
        destruct r as [[] | e]; cbn [events].
        -- rewrite network_request, Hnet by reflexivity. reflexivity.
        -- rewrite network_prints, network_request, Hnet by reflexivity.
           reflexivity.
    + now rewrite H.
  - rewrite run_main_upload by assumption. cbn zeta.
    replace (match arg_command args, arg_audio_file args with
             | CmdHealth, _ =>
                 [Get (endpoint (MusicMind_init w (Some (arg_endpoint args)))
                       +:+ "/health")]
             | _, None => []
             | _, Some path =>
                 if String.eqb path "" || negb (path_exists w path) then []
                 else match open_rb w path with
                      | Ok f =>
                          [Post (upload_request
                                   (MusicMind_init w (Some (arg_endpoint args)))
                                   args f)]
                      | Raise _ => []
                      end
             end)
      with (match arg_audio_file args with
            | None => []
            | Some path =>
                if String.eqb path "" || negb (path_exists w path) then []
                else match open_rb w path with
                     | Ok f =>
                         [Post (upload_request
                                  (MusicMind_init w (Some (arg_endpoint args)))
                                  args f)]
                     | Raise _ => []
                     end
            end)
      by (destruct (arg_command args); congruence).
    destruct (arg_audio_file args) as [path |]; [| reflexivity].
    destruct path as [| c path'] eqn:Hpath; [reflexivity |].
    rewrite <- Hpath. replace (String.eqb path "") with false
      by (rewrite Hpath; reflexivity).
    clear Hpath c path'. cbn [orb].
    destruct (path_exists w path); cbn [negb]; [| reflexivity].
    destruct (open_rb w path) as [f | e] eqn:Hopen.
    2: { now rewrite (task_block_open_error _ _ _ _ _ _ Hopen Hcmd). }
    pose proof (task_block_after_open w lib
                  (MusicMind_init w (Some (arg_endpoint args))) args path f
                  Hcmd Hopen) as H.
    cbn zeta in H.
    destruct (decoded lib _) as [v | e'].
    + destruct (arg_json args).
      * now rewrite H.
      * destruct H as (ev & r & -> & Hnet & _).
        destruct r as [[] | e']; cbn [events].
        -- rewrite network_request, Hnet by reflexivity. reflexivity.
        -- rewrite network_prints, network_request, Hnet by reflexivity.
           reflexivity.
    + rewrite H. cbn [events]. now rewrite network_prints.
Qed.

(** ** Server documents and the client's text output *)

(** X14. Whatever an inference method of the server returns has the
    fields the text output of the matching client command reads, with
    numbers where it formats numbers. *)
Theorem server_results_have_the_fields_the_client_reads
    (svc : Server.Services) (ep : Server.endpoint) (fs : gmap string bytes)
    (tmp_path : string) (result : pydict) :
  Server.handler svc ep fs tmp_path = Ok result ->
  renderable (Contract.command_for ep) (PyDict result) = true.
Proof.
  intros Hresult. apply ServerMore.handler_result_fields in Hresult.
  destruct ep; cbn [Contract.command_for] in *.
  - destruct Hresult as (text & t & d & -> & Ht & Hd).
    unfold renderable, has_field, has_number. cbn -[formats_1f].
    now rewrite Ht, Hd.
  - destruct Hresult as (text & t & d & -> & Ht & Hd).
    unfold renderable, has_field, has_number. cbn -[formats_1f].
    now rewrite Ht.
  - now destruct Hresult as (text & ->).
  - now destruct Hresult as (text & t & d & -> & Ht & Hd).
Qed.

Lemma server_results_have_the_fields_the_client_reads_witness :
  renderable CmdPartyVibe
    (PyDict [("analysis", PyStr "House, energy 8/10.");
             ("tempo_bpm", PyFloat 120%Q);
             ("duration_seconds", PyFloat 30%Q);
             ("vibe_check", PyBool true)]) = true.
Proof.
  apply (server_results_have_the_fields_the_client_reads Sample.svc
           Server.PartyVibe Sample.studio "/in/song.wav").
  vm_compute. reflexivity.
Defined.



End ClientMore.
